(** * gonetworkmanager: the NetworkManager binding ([NetworkManager.go])

    A shallow embedding of the [networkManager] methods of
    [NetworkManager.go] and the properties of its specification.

    The file under verification is a thin client: every method forwards to
    helpers of the embedded [dbusBase], to the handle constructors
    [DeviceFactory] and [NewActiveConnection], or to the bus connection.
    None of those is defined in [NetworkManager.go].  The embedding
    therefore has two layers.

    - The methods are written once, over an interface [Env] that lists the
      helpers with the types their call sites fix.  Properties decided by
      the method bodies alone are proved for every implementation of [Env].
    - [Module Double] gives one implementation of [Env], written from the
      specification's description of the bus client; it serves the
      properties that speak about what the helpers themselves return, and
      it supplies concrete runs.

    Go's [(value, error)] results are pairs whose second component is an
    [option error] ([None] is Go's [nil] error); a [nil] interface value
    or [nil] slice is [None]. *)

From Stdlib Require Import ZArith Lia Ascii.
From stdpp Require Import base option list strings gmap pretty.

Local Open Scope Z_scope.
Local Open Scope string_scope.
Local Open Scope list_scope.

(* ===================================================================== *)
(** ** Constants of [NetworkManager.go] *)
(* ===================================================================== *)

Definition NetworkManagerInterface : string := "org.freedesktop.NetworkManager".
Definition NetworkManagerObjectPath : string := "/org/freedesktop/NetworkManager".

Definition NetworkManagerGetDevices : string :=
  NetworkManagerInterface +:+ ".GetDevices".
Definition NetworkManagerActivateConnection : string :=
  NetworkManagerInterface +:+ ".ActivateConnection".
Definition NetworkManagerAddAndActivateConnection : string :=
  NetworkManagerInterface +:+ ".AddAndActivateConnection".
Definition NetworkManagerPropertyState : string :=
  NetworkManagerInterface +:+ ".State".
Definition NetworkManagerPropertyActiveConnection : string :=
  NetworkManagerInterface +:+ ".ActiveConnections".

(* ===================================================================== *)
(** ** Data model *)
(* ===================================================================== *)

(** [dbus.ObjectPath] is a Go string type. *)
Definition ObjectPath : Type := string.

(** A dynamically typed value ([interface{}]): the entries of a connection
    profile and the items of a reply body. *)
Inductive Variant : Type :=
  | VString (s : string)
  | VUint32 (n : Z)
  | VBool (b : bool)
  | VObjectPath (p : ObjectPath)
  | VObjectPaths (ps : list ObjectPath).

(** [map[string]map[string]interface{}]: section, then key, then value. *)
Definition Profile : Type := gmap string (gmap string Variant).

(** The variadic [args ...interface{}] of the call helpers, at the two
    types the methods pass. *)
Inductive Arg : Type :=
  | AObjectPath (p : ObjectPath)
  | AConnection (c : Profile).

(** Modelled from the spec: the error taxonomy of the bus client (the Go
    [error] values are produced outside [NetworkManager.go]).  A transport
    error means the bus is unreachable, a remote error carries the fault the
    daemon returned (its name, and the structured details when they were
    decoded), a decode error means the reply did not have the expected
    shape. *)
Inductive error : Type :=
  | TransportError
  | RemoteError (fault : string) (details : list string)
  | DecodeError.

(** Modelled from the spec: the handle types (their declarations are outside
    [NetworkManager.go]).  A handle wraps a remote object reference plus the
    cached interface name; its identity is the remote path. *)
Record Connection : Type := mkConnection
  { connection_path : ObjectPath; connection_iface : string }.
Record Device : Type := mkDevice
  { device_path : ObjectPath; device_iface : string }.
Record AccessPoint : Type := mkAccessPoint
  { accessPoint_path : ObjectPath; accessPoint_iface : string }.
Record ActiveConnection : Type := mkActiveConnection
  { activeConnection_path : ObjectPath; activeConnection_iface : string }.

(** The [GetPath()] method the handle interfaces share. *)
Class HasPath (T : Type) : Type := GetPath : T -> ObjectPath.
#[global] Instance Connection_HasPath : HasPath Connection := connection_path.
#[global] Instance Device_HasPath : HasPath Device := device_path.
#[global] Instance AccessPoint_HasPath : HasPath AccessPoint := accessPoint_path.
#[global] Instance ActiveConnection_HasPath : HasPath ActiveConnection :=
  activeConnection_path.

(** Modelled from the spec: the state enumeration [NmState] (declared outside
    [NetworkManager.go]).  The method converts a [uint32] with [NmState(r)],
    so the type is an integer type; the codes are the daemon's published
    ones, of which the spec names 0 (unknown) and 70 (connected). *)
Record NmState : Type := ToNmState { NmState_code : Z }.

Definition NmStateUnknown : NmState := ToNmState 0.
Definition NmStateAsleep : NmState := ToNmState 10.
Definition NmStateDisconnected : NmState := ToNmState 20.
Definition NmStateDisconnecting : NmState := ToNmState 30.
Definition NmStateConnecting : NmState := ToNmState 40.
Definition NmStateConnectedLocal : NmState := ToNmState 50.
Definition NmStateConnectedSite : NmState := ToNmState 60.
Definition NmStateConnectedGlobal : NmState := ToNmState 70.

(** The defined set of state codes. *)
Definition NmState_defined_codes : list Z := [0; 10; 20; 30; 40; 50; 60; 70].

Definition NmState_defined (r : Z) : bool :=
  bool_decide (r ∈ NmState_defined_codes).

(** The decoding the specification words describe, for comparison with
    [GetState]: a defined integer gives its variant, any other integer gives
    the unknown sentinel. *)
Definition decodeState_spec (r : Z) : NmState :=
  if NmState_defined r then ToNmState r else NmStateUnknown.

(** A notification message ([dbus.Signal]). *)
Record Signal : Type := mkSignal
  { signal_path : ObjectPath; signal_name : string; signal_body : list Variant }.

(** A Go channel value is a reference; [chan] is its address in the store of
    channels.  [make] allocates; [close], which [NetworkManager.go] never
    calls, would set [chan_closed]. *)
Definition chan : Type := nat.

Record Chan : Type := mkChan
  { chan_cap : nat; chan_closed : bool; chan_queue : list Signal }.

(** [networkManager] embeds [dbusBase] (the connection and the remote
    object, kept in [World] below) and adds the subscription channel;
    [None] is the [nil] channel. *)
Record networkManager : Type := mkNetworkManager
  { sigChan : option chan }.

(* ===================================================================== *)
(** ** The environment of the methods *)
(* ===================================================================== *)

(** One entry per helper invocation, in program order, with the error the
    helper returned. *)
Inductive Event : Type :=
  | ECall (method : string) (args : list Arg) (err : option error)
  | ECall2 (method : string) (args : list Arg) (err : option error)
  | ECallError2 (method : string) (args : list Arg) (err : option error)
  | EGetUint32Property (prop : string) (err : option error)
  | EGetSliceObjectProperty (prop : string) (err : option error)
  | ESubscribeNamespace (ns : string)
  | EDeviceFactory (p : ObjectPath) (err : option error)
  | ENewActiveConnection (p : ObjectPath) (err : option error)
  | EMarshal (state : string) (devices : option (list (option Device)))
             (err : option error).

(** The helpers [NetworkManager.go] calls and does not define, with the
    types of their call sites.  [D] is whatever they act on (the bus and the
    daemon behind it).  An out-parameter [&v] becomes a component of the
    result; [call] is used at two out-parameter types.  The [uint32] of
    [getUint32Property] is a [Z]; the methods do no arithmetic on it. *)
Class Env (D : Type) : Type := mkEnv
  { call_ObjectPaths :
      string -> list Arg -> D -> (list ObjectPath * option error) * D;
    call_ObjectPath :
      string -> list Arg -> D -> (ObjectPath * option error) * D;
    call2 :
      string -> list Arg -> D -> (ObjectPath * ObjectPath * option error) * D;
    callError2 :
      string -> list Arg -> D -> (ObjectPath * ObjectPath * option error) * D;
    getUint32Property : string -> D -> (Z * option error) * D;
    getSliceObjectProperty :
      string -> D -> (list ObjectPath * option error) * D;
    subscribeNamespace : string -> D -> D;
    DeviceFactory : ObjectPath -> D -> (option Device * option error) * D;
    NewActiveConnection :
      ObjectPath -> D -> (option ActiveConnection * option error) * D;
    NmState_String : NmState -> string;
    json_Marshal :
      string -> option (list (option Device)) -> D
      -> (option (list Byte.byte) * option error) * D }.

(** What a method runs against: the helpers' state, the log of helper
    invocations, the channels registered on the connection with
    [conn.Signal], and the store of channels. *)
Record World (D : Type) : Type := mkWorld
  { daemon : D;
    trace : list Event;
    signals : list chan;
    chans : list Chan }.

Arguments mkWorld {D} _ _ _ _.
Arguments daemon {D} _.
Arguments trace {D} _.
Arguments signals {D} _.
Arguments chans {D} _.

(** The state monad of the methods. *)
Definition M (D A : Type) : Type := World D -> A * World D.

#[global] Instance M_ret {D} : MRet (M D) := fun A a w => (a, w).
#[global] Instance M_bind {D} : MBind (M D) :=
  fun A B f m w => let '(a, w') := m w in f a w'.

Definition run {D A} (m : M D A) (w : World D) : A := fst (m w).
Definition exec {D A} (m : M D A) (w : World D) : World D := snd (m w).

(** The helper invocations a computation adds to the log. *)
Definition events {D A} (m : M D A) (w : World D) : list Event :=
  drop (length (trace w)) (trace (exec m w)).

(** A helper invocation: let the helper act on its state, and log the
    invocation with its outcome. *)
Definition invoke {D A} (ev : A -> Event) (h : D -> A * D) : M D A :=
  fun w =>
    let '(a, d) := h (daemon w) in
    (a, mkWorld d (trace w ++ [ev a]) (signals w) (chans w)).

(** [make(chan *dbus.Signal, cap)]: a new, open, empty channel at the next
    free address. *)
Definition make_chan {D} (cap : nat) : M D chan :=
  fun w =>
    (length (chans w),
     mkWorld (daemon w) (trace w) (signals w)
             (chans w ++ [mkChan cap false []])).

(** [conn.Signal(ch)] of the bus library registers [ch] to be passed the
    received signals; several channels can be registered. *)
Definition conn_Signal {D} (c : chan) : M D unit :=
  fun w => (tt, mkWorld (daemon w) (trace w) (signals w ++ [c]) (chans w)).

(** [conn.RemoveSignal(ch)] of the bus library removes [ch] from the
    registered channels and does nothing else; a [nil] channel is registered
    nowhere. *)
Definition conn_RemoveSignal {D} (c : option chan) : M D unit :=
  fun w =>
    (tt,
     match c with
     | Some c =>
         mkWorld (daemon w) (trace w)
                 (filter (fun c' => c' ≠ c) (signals w)) (chans w)
     | None => w
     end).

(* ===================================================================== *)
(** ** The methods of [networkManager] *)
(* ===================================================================== *)

(** The arguments of the two activation calls. *)
Definition activate_args (c : Connection) (d : Device) (ap : AccessPoint)
    : list Arg :=
  [AObjectPath (GetPath c); AObjectPath (GetPath d); AObjectPath (GetPath ap)].

Definition add_args (connection : Profile) (d : Device) (ap : AccessPoint)
    : list Arg :=
  [AConnection connection; AObjectPath (GetPath d); AObjectPath (GetPath ap)].

Section Methods.

Context {D : Type} `{!Env D}.

(** The body of [for i, path := range devicePaths] in [GetDevices]:
    [devices[i], err = DeviceFactory(path)], then the early return.  The
    slice has one slot per path, so the index is in range at every store
    (the stores of [GetDevices] are those of [wrap_loop_succeeds] below,
    which asks for it). *)
Fixpoint GetDevices_loop (i : nat) (devicePaths : list ObjectPath)
    (devices : list (option Device))
    : M D (option (list (option Device)) * option error) :=
  match devicePaths with
  | [] => mret (Some devices, None)
  | path :: rest =>
      '(d, err) ← invoke (fun r => EDeviceFactory path (snd r))
                         (DeviceFactory path);
      let devices := <[i := d]> devices in
      match err with
      | Some e => mret (None, Some e)
      | None => GetDevices_loop (S i) rest devices
      end
  end.

Definition GetDevices (n : networkManager)
    : M D (option (list (option Device)) * option error) :=
  '(devicePaths, err) ←
     invoke (fun r => ECall NetworkManagerGetDevices [] (snd r))
            (call_ObjectPaths NetworkManagerGetDevices []);
  match err with
  | Some e => mret (None, Some e)
  | None =>
      let devices := replicate (length devicePaths) None in
      GetDevices_loop 0 devicePaths devices
  end.

Definition GetState (n : networkManager) : M D (NmState * option error) :=
  '(r, err) ←
     invoke (fun r => EGetUint32Property NetworkManagerPropertyState (snd r))
            (getUint32Property NetworkManagerPropertyState);
  match err with
  | Some e => mret (NmStateUnknown, Some e)
  | None => mret (ToNmState r, None)
  end.

(** The loop of [GetActiveConnections]. *)
Fixpoint GetActiveConnections_loop (i : nat) (acPaths : list ObjectPath)
    (ac : list (option ActiveConnection))
    : M D (option (list (option ActiveConnection)) * option error) :=
  match acPaths with
  | [] => mret (Some ac, None)
  | path :: rest =>
      '(a, err) ← invoke (fun r => ENewActiveConnection path (snd r))
                         (NewActiveConnection path);
      let ac := <[i := a]> ac in
      match err with
      | Some e => mret (None, Some e)
      | None => GetActiveConnections_loop (S i) rest ac
      end
  end.

Definition GetActiveConnections (n : networkManager)
    : M D (option (list (option ActiveConnection)) * option error) :=
  '(acPaths, err) ←
     invoke (fun r => EGetSliceObjectProperty
                        NetworkManagerPropertyActiveConnection (snd r))
            (getSliceObjectProperty NetworkManagerPropertyActiveConnection);
  match err with
  | Some e => mret (None, Some e)
  | None =>
      let ac := replicate (length acPaths) None in
      GetActiveConnections_loop 0 acPaths ac
  end.

Definition ActivateWirelessConnection (n : networkManager)
    (c : Connection) (d : Device) (ap : AccessPoint)
    : M D (option ActiveConnection * option error) :=
  let args := activate_args c d ap in
  '(opath, err) ←
     invoke (fun r => ECall NetworkManagerActivateConnection args (snd r))
            (call_ObjectPath NetworkManagerActivateConnection args);
  mret (None, err).

(** The first definition of [AddAndActivateWirelessConnection], through
    [call2].  The named results [ac] and [err] start as [nil]. *)
Definition AddAndActivateWirelessConnection (n : networkManager)
    (connection : Profile) (d : Device) (ap : AccessPoint)
    : M D (option ActiveConnection * option error) :=
  let args := add_args connection d ap in
  '(opath1, opath2, err) ←
     invoke (fun r => ECall2 NetworkManagerAddAndActivateConnection args
                             (snd r))
            (call2 NetworkManagerAddAndActivateConnection args);
  match err with
  | Some e => mret (None, Some e)
  | None =>
      '(ac, err) ← invoke (fun r => ENewActiveConnection opath2 (snd r))
                          (NewActiveConnection opath2);
      mret (ac, err)
  end.

(** The second definition of the same method, through [callError2]. *)
Definition AddAndActivateWirelessConnection_callError2 (n : networkManager)
    (connection : Profile) (d : Device) (ap : AccessPoint)
    : M D (option ActiveConnection * option error) :=
  let args := add_args connection d ap in
  '(opath1, opath2, err) ←
     invoke (fun r => ECallError2 NetworkManagerAddAndActivateConnection args
                                  (snd r))
            (callError2 NetworkManagerAddAndActivateConnection args);
  match err with
  | Some e => mret (None, Some e)
  | None =>
      '(ac, err) ← invoke (fun r => ENewActiveConnection opath2 (snd r))
                          (NewActiveConnection opath2);
      mret (ac, err)
  end.

(** [Subscribe] returns the channel and the updated receiver. *)
Definition Subscribe (n : networkManager) : M D (chan * networkManager) :=
  match sigChan n with
  | Some c => mret (c, n)
  | None =>
      _ ← invoke (fun _ => ESubscribeNamespace NetworkManagerObjectPath)
                 (fun d => (tt, subscribeNamespace NetworkManagerObjectPath d));
      c ← make_chan 10;
      let n := mkNetworkManager (Some c) in
      _ ← conn_Signal c;
      mret (c, n)
  end.

(** [Unsubscribe] returns the updated receiver. *)
Definition Unsubscribe (n : networkManager) : M D networkManager :=
  _ ← conn_RemoveSignal (sigChan n);
  mret (mkNetworkManager None).

Definition MarshalJSON (n : networkManager)
    : M D (option (list Byte.byte) * option error) :=
  '(NetworkState, err) ← GetState n;
  match err with
  | Some e => mret (None, Some e)
  | None =>
      '(Devices, err) ← GetDevices n;
      match err with
      | Some e => mret (None, Some e)
      | None =>
          let name := NmState_String NetworkState in
          invoke (fun r => EMarshal name Devices (snd r))
                 (json_Marshal name Devices)
      end
  end.

End Methods.

(* ===================================================================== *)
(** ** Notions used by the statements *)
(* ===================================================================== *)

Section Wrap_loop.

(** The loops of [GetDevices] and [GetActiveConnections] are one loop at
    two handle types: [wrap_loop] is that loop for any wrapping function,
    and the properties of the two are proved on it. *)

Context {D T : Type}.
Variable ev : ObjectPath -> option error -> Event.
Variable wrap : ObjectPath -> D -> (option T * option error) * D.

Fixpoint wrap_loop (i : nat) (paths : list ObjectPath)
    (out : list (option T)) : M D (option (list (option T)) * option error) :=
  match paths with
  | [] => mret (Some out, None)
  | path :: rest =>
      '(h, err) ← invoke (fun r => ev path (snd r)) (wrap path);
      let out := <[i := h]> out in
      match err with
      | Some e => mret (None, Some e)
      | None => wrap_loop (S i) rest out
      end
  end.

(** Wrapping [p] fails, from whatever state of the helpers. *)
Definition wrap_fails (p : ObjectPath) : Prop :=
  forall d : D, snd (fst (wrap p d)) <> None.

(** Either an error and the nil list, or no error and a list of [len]
    entries. *)
Definition all_or_nothing (len : nat)
    (r : option (list (option T)) * option error) : Prop :=
  (exists e, r = (None, Some e))
  \/ (exists l, r = (Some l, None) /\ length l = len).

End Wrap_loop.

Section Notions.

Context {D : Type} `{!Env D}.

(** The paths of the two enumeration replies. *)
Definition device_paths (w : World D) : list ObjectPath :=
  fst (fst (call_ObjectPaths NetworkManagerGetDevices [] (daemon w))).

Definition active_connection_paths (w : World D) : list ObjectPath :=
  fst (fst (getSliceObjectProperty
              NetworkManagerPropertyActiveConnection (daemon w))).

(** What both definitions of add-and-activate do with the outcome
    [(opath1, opath2, err)] of their call helper, in the helpers' state
    [d'] the call left. *)
Definition wrap_second (out : ObjectPath * ObjectPath * option error) (d' : D)
    : option ActiveConnection * option error :=
  match out with
  | (_, _, Some e) => (None, Some e)
  | (_, opath2, None) => fst (NewActiveConnection opath2 d')
  end.

(** The channel a handle holds has been made. *)
Definition holds_made_channel (n : networkManager) (w : World D) : Prop :=
  forall c, sigChan n = Some c -> (c < length (chans w))%nat.

End Notions.

(* ===================================================================== *)
(** ** A bus double written from the specification *)
(* ===================================================================== *)

Module Double.

(** What the client sends: a method call or a property read. *)
Inductive Request : Type :=
  | RCall (method : string) (args : list Arg)
  | RGet (prop : string).

(** What comes back: nothing (bus unreachable), a fault of the daemon, or
    a reply body. *)
Inductive Reply : Type :=
  | Unreachable
  | Fault (name : string) (details : list string)
  | Body (vs : list Variant).

(** The remote side.  [answer t r] is the reply to request [r] when it is
    the [t]-th request sent; [matches] are the namespaces registered for
    notification; [render] is the encoder of snapshots. *)
Record Daemon : Type := mkDaemon
  { answer : nat -> Request -> Reply;
    clock : nat;
    matches : list string;
    render : string -> option (list (option Device)) -> list Byte.byte }.

Definition tick (d : Daemon) : Daemon :=
  mkDaemon (answer d) (S (clock d)) (matches d) (render d).

(** One synchronous round trip. *)
Definition send (r : Request) (d : Daemon) : Reply * Daemon :=
  (answer d (clock d) r, tick d).

(** The fault decoded to its plain string. *)
Definition plain_fault (r : Reply) : error :=
  match r with
  | Unreachable => TransportError
  | Fault name _ => RemoteError name []
  | Body _ => DecodeError
  end.

(** The fault decoded with its structured details. *)
Definition structured_fault (r : Reply) : error :=
  match r with
  | Unreachable => TransportError
  | Fault name details => RemoteError name details
  | Body _ => DecodeError
  end.

(** Modelled from the spec: [call] of [dbusBase] (not in
    [NetworkManager.go]), the spec's [invoke]: a synchronous remote call
    that fails with a transport error if the bus is unreachable, a remote
    error if the daemon returns a fault, a decode error if the reply does
    not have the expected shape.  Here the expected shape is a sequence of
    object paths. *)
Definition double_call_ObjectPaths (method : string) (args : list Arg)
    (d : Daemon) : (list ObjectPath * option error) * Daemon :=
  let '(r, d') := send (RCall method args) d in
  match r with
  | Body [VObjectPaths ps] => ((ps, None), d')
  | _ => (([], Some (plain_fault r)), d')
  end.

(** Modelled from the spec: [call] of [dbusBase] at one object path. *)
Definition double_call_ObjectPath (method : string) (args : list Arg)
    (d : Daemon) : (ObjectPath * option error) * Daemon :=
  let '(r, d') := send (RCall method args) d in
  match r with
  | Body [VObjectPath p] => ((p, None), d')
  | _ => (("", Some (plain_fault r)), d')
  end.

(** Modelled from the spec: [call2] of [dbusBase] (not in
    [NetworkManager.go]): the remote call with two results, a fault
    decoded to its plain string. *)
Definition double_call2 (method : string) (args : list Arg)
    (d : Daemon) : (ObjectPath * ObjectPath * option error) * Daemon :=
  let '(r, d') := send (RCall method args) d in
  match r with
  | Body [VObjectPath p1; VObjectPath p2] => ((p1, p2, None), d')
  | _ => (("", "", Some (plain_fault r)), d')
  end.

(** Modelled from the spec: [callError2] of [dbusBase] (not in
    [NetworkManager.go]): the same remote call, a fault decoded with its
    structured details. *)
Definition double_callError2 (method : string) (args : list Arg)
    (d : Daemon) : (ObjectPath * ObjectPath * option error) * Daemon :=
  let '(r, d') := send (RCall method args) d in
  match r with
  | Body [VObjectPath p1; VObjectPath p2] => ((p1, p2, None), d')
  | _ => (("", "", Some (structured_fault r)), d')
  end.

(** Modelled from the spec: [getUint32Property] of [dbusBase] (not in
    [NetworkManager.go]), the spec's [getProperty] at an integer: a
    synchronous property read with the same error taxonomy. *)
Definition double_getUint32Property (prop : string) (d : Daemon)
    : (Z * option error) * Daemon :=
  let '(r, d') := send (RGet prop) d in
  match r with
  | Body [VUint32 v] => ((v, None), d')
  | _ => ((0, Some (plain_fault r)), d')
  end.

(** Modelled from the spec: [getSliceObjectProperty] of [dbusBase] (not in
    [NetworkManager.go]), the property read at a sequence of object
    paths. *)
Definition double_getSliceObjectProperty (prop : string) (d : Daemon)
    : (list ObjectPath * option error) * Daemon :=
  let '(r, d') := send (RGet prop) d in
  match r with
  | Body [VObjectPaths ps] => ((ps, None), d')
  | _ => (([], Some (plain_fault r)), d')
  end.

(** Modelled from the spec: [subscribeNamespace] of [dbusBase] (not in
    [NetworkManager.go]): registers interest in all notifications under
    the given object-path namespace. *)
Definition double_subscribeNamespace (ns : string) (d : Daemon) : Daemon :=
  mkDaemon (answer d) (clock d) (matches d ++ [ns]) (render d).

(** The characters of a path element: letters, digits and the
    underscore. *)
Definition isMemberChar (c : ascii) : bool :=
  let k := nat_of_ascii c in
  ((48 <=? k) && (k <=? 57) || (65 <=? k) && (k <=? 90)
   || (97 <=? k) && (k <=? 122) || (k =? 95))%nat.

Definition isSlash (c : ascii) : bool := (nat_of_ascii c =? 47)%nat.

(** The elements after the leading slash: non-empty, of member characters,
    separated by single slashes; [open] tells that the current element has
    a character already. *)
Fixpoint valid_elements (s : string) (open : bool) : bool :=
  match s with
  | EmptyString => open
  | String c rest =>
      if isSlash c then open && valid_elements rest false
      else isMemberChar c && valid_elements rest true
  end.

(** Modelled from the spec: the valid object paths.  The spec leaves the
    notion to the bus, whose rule this is: the root path, or a slash
    followed by non-empty elements separated by slashes, with no trailing
    slash. *)
Definition ObjectPath_IsValid (p : ObjectPath) : bool :=
  match p with
  | EmptyString => false
  | String c EmptyString => isSlash c
  | String c rest => isSlash c && valid_elements rest false
  end.

Definition DeviceInterface : string := NetworkManagerInterface +:+ ".Device".
Definition ActiveConnectionInterface : string :=
  NetworkManagerInterface +:+ ".Connection.Active".

(** Modelled from the spec: [DeviceFactory] (not in [NetworkManager.go]):
    wrapping a valid object path succeeds and gives the handle of that
    path; any other wrap step fails. *)
Definition double_DeviceFactory (p : ObjectPath) (d : Daemon)
    : (option Device * option error) * Daemon :=
  if ObjectPath_IsValid p
  then ((Some (mkDevice p DeviceInterface), None), d)
  else ((None, Some DecodeError), d).

(** Modelled from the spec: [NewActiveConnection] (not in
    [NetworkManager.go]): the same wrapping, for active connections. *)
Definition double_NewActiveConnection (p : ObjectPath) (d : Daemon)
    : (option ActiveConnection * option error) * Daemon :=
  if ObjectPath_IsValid p
  then ((Some (mkActiveConnection p ActiveConnectionInterface), None), d)
  else ((None, Some DecodeError), d).

(** Modelled from the spec: [NmState.String] (not in
    [NetworkManager.go]): the human-readable name of a state. *)
Definition double_NmState_String (s : NmState) : string :=
  let c := NmState_code s in
  if decide (c = 0) then "unknown"
  else if decide (c = 10) then "asleep"
  else if decide (c = 20) then "disconnected"
  else if decide (c = 30) then "disconnecting"
  else if decide (c = 40) then "connecting"
  else if decide (c = 50) then "connected-local"
  else if decide (c = 60) then "connected-site"
  else if decide (c = 70) then "connected"
  else "NmState(" +:+ pretty c +:+ ")".

(** Modelled from the spec: the snapshot encoder ([json.Marshal] over the
    handles' own encoders, not in [NetworkManager.go]): renders the state
    name and the device list. *)
Definition double_json_Marshal (name : string)
    (devices : option (list (option Device))) (d : Daemon)
    : (option (list Byte.byte) * option error) * Daemon :=
  ((Some (render d name devices), None), d).

#[global] Instance double_env : Env Daemon :=
  mkEnv Daemon
    double_call_ObjectPaths double_call_ObjectPath
    double_call2 double_callError2
    double_getUint32Property double_getSliceObjectProperty
    double_subscribeNamespace
    double_DeviceFactory double_NewActiveConnection
    double_NmState_String double_json_Marshal.

(** A second implementation, equal to the first except that a failed
    integer property read leaves a stale value in its result. *)
Definition stale_getUint32Property (prop : string) (d : Daemon)
    : (Z * option error) * Daemon :=
  let '((v, err), d') := double_getUint32Property prop d in
  match err with
  | Some e => ((70, Some e), d')
  | None => ((v, None), d')
  end.

Definition stale_env : Env Daemon :=
  mkEnv Daemon
    double_call_ObjectPaths double_call_ObjectPath
    double_call2 double_callError2
    stale_getUint32Property double_getSliceObjectProperty
    double_subscribeNamespace
    double_DeviceFactory double_NewActiveConnection
    double_NmState_String double_json_Marshal.

(** The reply of the daemon to the request a method is about to send. *)
Definition next_reply (r : Request) (w : World Daemon) : Reply :=
  answer (daemon w) (clock (daemon w)) r.

(** The add-and-activate request of both definitions of the method. *)
Definition add_request (connection : Profile) (d : Device)
    (ap : AccessPoint) : Request :=
  RCall NetworkManagerAddAndActivateConnection (add_args connection d ap).

(** The world of a handle just created: nothing logged, nothing
    registered, no channel made. *)
Definition fresh (d : Daemon) : World Daemon := mkWorld d [] [] [].

Definition nm0 : networkManager := mkNetworkManager None.

End Double.

(* ===================================================================== *)
(** ** Concrete daemons, for running the methods *)
(* ===================================================================== *)

Module Scene.

Import Double.

Definition names_only (name : string)
    (devices : option (list (option Device))) : list Byte.byte :=
  String.list_byte_of_string name.

(** A daemon that gives the same reply to every request. *)
Definition constant (r : Reply) : Daemon :=
  mkDaemon (fun _ _ => r) 0 [] names_only.

(** A world in which the bus is unreachable. *)
Definition unreachable : World Daemon := fresh (constant Unreachable).

(** A world whose daemon rejects every request with a fault that carries
    details. *)
Definition rejecting : World Daemon :=
  fresh (constant (Fault "org.freedesktop.NetworkManager.UnknownDevice"
                         ["Device not found"])).

Definition settings_5 : ObjectPath :=
  "/org/freedesktop/NetworkManager/Settings/5".
Definition active_1 : ObjectPath :=
  "/org/freedesktop/NetworkManager/ActiveConnection/1".
Definition active_2 : ObjectPath :=
  "/org/freedesktop/NetworkManager/ActiveConnection/2".
Definition device_0 : ObjectPath :=
  "/org/freedesktop/NetworkManager/Devices/0".
Definition device_3 : ObjectPath :=
  "/org/freedesktop/NetworkManager/Devices/3".
(** Not an object path: it has no leading slash. *)
Definition malformed : ObjectPath := "Devices/1".

Definition a_connection : Connection :=
  mkConnection settings_5
               "org.freedesktop.NetworkManager.Settings.Connection".
Definition a_device : Device := mkDevice device_3 DeviceInterface.
Definition an_accessPoint : AccessPoint :=
  mkAccessPoint "/org/freedesktop/NetworkManager/AccessPoint/7"
                "org.freedesktop.NetworkManager.AccessPoint".
Definition a_profile : Profile :=
  {[ "802-11-wireless" :=
       {[ "security" := VString "802-11-wireless-security" ]};
     "802-11-wireless-security" :=
       {[ "key-mgmt" := VString "wpa-psk"; "psk" := VString "secret" ]} ]}.

(** A daemon in state [state] that enumerates the devices [devs] and the
    active connections [acs], answers activate-connection with one path
    and add-and-activate-connection with two. *)
Definition serving (state : Z) (devs acs : list ObjectPath) : Daemon :=
  mkDaemon
    (fun _ r =>
       match r with
       | RGet prop =>
           if decide (prop = NetworkManagerPropertyState)
           then Body [VUint32 state]
           else if decide (prop = NetworkManagerPropertyActiveConnection)
           then Body [VObjectPaths acs]
           else Fault "org.freedesktop.DBus.Error.UnknownProperty" []
       | RCall method _ =>
           if decide (method = NetworkManagerGetDevices)
           then Body [VObjectPaths devs]
           else if decide (method = NetworkManagerActivateConnection)
           then Body [VObjectPath active_1]
           else if decide (method = NetworkManagerAddAndActivateConnection)
           then Body [VObjectPath settings_5; VObjectPath active_2]
           else Fault "org.freedesktop.DBus.Error.UnknownMethod" []
       end)
    0 [] names_only.

(** Connected, two devices, one active connection. *)
Definition online : World Daemon :=
  fresh (serving 70 [device_0; device_3] [active_1]).

(** The daemon reports a state code outside the defined set. *)
Definition state_71 : World Daemon := fresh (serving 71 [] []).

(** One element of each enumeration does not wrap. *)
Definition broken_lists : World Daemon :=
  fresh (serving 70 [device_0; malformed; device_3] [active_1; malformed]).

(** The state read succeeds and the device enumeration call fails. *)
Definition devices_down : World Daemon :=
  fresh (mkDaemon
           (fun _ r =>
              match r with
              | RGet _ => Body [VUint32 70]
              | RCall _ _ => Unreachable
              end)
           0 [] names_only).

(** The handle and the world after one [Subscribe] in [online]. *)
Definition subscriber : networkManager := snd (run (Subscribe nm0) online).
Definition subscribed : World Daemon := exec (Subscribe nm0) online.

End Scene.

(* ===================================================================== *)
(** ** The constructor, and sequences of calls on one handle *)
(* ===================================================================== *)

Section Construction.

Context {D : Type}.

(** [init] of [dbusBase] (not in [NetworkManager.go]): it connects the
    embedded base to the bus for an interface and an object path, and can
    fail.  It is not one of the helpers the methods invoke, and its
    invocation is not logged. *)
Variable init : string -> string -> D -> option error * D.

(** [NewNetworkManager]: [var nm networkManager] is the zero value, whose
    channel is [nil]; [return &nm, nm.init(...)] returns the handle together
    with the error of [init], whichever it is. *)
Definition NewNetworkManager : M D (networkManager * option error) :=
  fun w =>
    let '(err, d) :=
      init NetworkManagerInterface NetworkManagerObjectPath (daemon w) in
    ((mkNetworkManager None, err),
     mkWorld d (trace w) (signals w) (chans w)).

End Construction.

(** A call of a method on the handle. *)
Inductive Op : Type :=
  | OSubscribe
  | OUnsubscribe
  | OGetState
  | OGetDevices
  | OGetActiveConnections
  | OActivateWirelessConnection (c : Connection) (d : Device) (ap : AccessPoint)
  | OAddAndActivateWirelessConnection
      (connection : Profile) (d : Device) (ap : AccessPoint)
  | OAddAndActivateWirelessConnection_callError2
      (connection : Profile) (d : Device) (ap : AccessPoint)
  | OMarshalJSON.

Section Sequences.

Context {D : Type} `{!Env D}.

(** One call: the method runs, its result is dropped, the receiver is kept
    as the method left it. *)
Definition step (o : Op) (n : networkManager) : M D networkManager :=
  match o with
  | OSubscribe => r ← Subscribe n; mret (snd r)
  | OUnsubscribe => Unsubscribe n
  | OGetState => _ ← GetState n; mret n
  | OGetDevices => _ ← GetDevices n; mret n
  | OGetActiveConnections => _ ← GetActiveConnections n; mret n
  | OActivateWirelessConnection c d ap =>
      _ ← ActivateWirelessConnection n c d ap; mret n
  | OAddAndActivateWirelessConnection connection d ap =>
      _ ← AddAndActivateWirelessConnection n connection d ap; mret n
  | OAddAndActivateWirelessConnection_callError2 connection d ap =>
      _ ← AddAndActivateWirelessConnection_callError2 n connection d ap;
      mret n
  | OMarshalJSON => _ ← MarshalJSON n; mret n
  end.

(** The calls of a list, one after the other. *)
Fixpoint steps (ops : list Op) (n : networkManager) : M D networkManager :=
  match ops with
  | [] => mret n
  | o :: rest => n' ← step o n; steps rest n'
  end.

(** A computation that leaves the subscription state alone: the registered
    channels and the store of channels are as before, and the log is only
    extended. *)
Definition frames {A} (m : M D A) : Prop :=
  forall w : World D,
    signals (exec m w) = signals w
    /\ chans (exec m w) = chans w
    /\ exists evs, trace (exec m w) = trace w ++ evs.

End Sequences.

(** [k] times [Subscribe] then [Unsubscribe]. *)
Fixpoint rounds (k : nat) : list Op :=
  match k with
  | O => []
  | S k' => OSubscribe :: OUnsubscribe :: rounds k'
  end.

(** The channel [Subscribe] makes: capacity 10, open, empty. *)
Definition new_channel : Chan := mkChan 10 false [].

(** The registration a handle has on the connection: its channel, if it
    holds one. *)
Definition own_registration (n : networkManager) : list chan :=
  match sigChan n with
  | Some c => [c]
  | None => []
  end.

(** Every channel registered on the connection has been made. *)
Definition registered_are_made {D} (w : World D) : Prop :=
  forall c, c ∈ signals w -> (c < length (chans w))%nat.

(** What holds of a handle [n] and its world [w] when the handle started
    without a channel in the world [w0]: the channels of [w0] are all still
    there, unchanged, followed by the channels made since, each as
    [Subscribe] makes it; the registrations of [w0] are all still there, in
    order, followed by the handle's own; the handle's channel is one of the
    channels made since. *)
Definition lifecycle {D} (w0 : World D) (n : networkManager) (w : World D)
    : Prop :=
  (exists k, chans w = chans w0 ++ replicate k new_channel)
  /\ signals w = signals w0 ++ own_registration n
  /\ (forall c, sigChan n = Some c ->
       (length (chans w0) <= c < length (chans w))%nat).

(** The event of a wrap that succeeded. *)
Definition wrapped (ev : ObjectPath -> option error -> Event)
    (p : ObjectPath) : Event := ev p None.

(** The log and the result of an enumeration loop over [paths]: either every
    path was wrapped, in order, and there is a list; or the wraps stopped at
    the first one that failed, and its error is returned with the nil
    list. *)
Definition stops_at_first_failure {T : Type}
    (ev : ObjectPath -> option error -> Event) (paths : list ObjectPath)
    (evs : list Event) (r : option (list (option T)) * option error) : Prop :=
  (evs = (wrapped ev <$> paths) /\ exists l, r = (Some l, None))
  \/ (exists k p e,
        paths !! k = Some p
        /\ evs = (wrapped ev <$> take k paths) ++ [ev p (Some e)]
        /\ r = (None, Some e)).

(** More worlds for running the methods. *)
Module Scene2.

Import Double.

(** No device, no active connection. *)
Definition idle : World Daemon := fresh (Scene.serving 70 [] []).

(** An [init] that connects. *)
Definition connecting (iface path : string) (d : Daemon)
    : option error * Daemon := (None, d).

(** A world in which another handle has registered a channel of its own
    before this one is created. *)
Definition shared : World Daemon :=
  mkWorld (Scene.serving 70 [Scene.device_0] [Scene.active_1])
          [] [0%nat] [mkChan 4 false []].

(** A daemon whose active-connection list has one malformed path, behind a
    good one. *)
Definition second_bad : World Daemon :=
  fresh (Scene.serving 70 [Scene.device_0; Scene.malformed; Scene.device_3]
                       [Scene.active_1; Scene.active_2]).

(** A caller's session on a handle created in [shared]. *)
Definition session : list Op :=
  [OSubscribe; OGetDevices; OSubscribe; OUnsubscribe; OMarshalJSON;
   OUnsubscribe; OSubscribe].

(** An implementation whose wrapping of an active connection returns the
    handle it built even when it fails. *)
Definition eager_NewActiveConnection (p : ObjectPath) (d : Daemon)
    : (option ActiveConnection * option error) * Daemon :=
  ((Some (mkActiveConnection p ActiveConnectionInterface),
    if ObjectPath_IsValid p then None else Some DecodeError), d).

Definition eager_env : Env Daemon :=
  mkEnv Daemon
    double_call_ObjectPaths double_call_ObjectPath
    double_call2 double_callError2
    double_getUint32Property double_getSliceObjectProperty
    double_subscribeNamespace
    double_DeviceFactory eager_NewActiveConnection
    double_NmState_String double_json_Marshal.

(** A daemon whose add-and-activate reply has a malformed second path. *)
Definition odd_reply : World Daemon :=
  fresh (mkDaemon
           (fun _ r =>
              match r with
              | RCall _ _ =>
                  Body [VObjectPath Scene.settings_5;
                        VObjectPath Scene.malformed]
              | RGet _ => Unreachable
              end)
           0 [] Scene.names_only).

(** An encoder that fails. *)
Definition failing_json_Marshal (name : string)
    (devices : option (list (option Device))) (d : Daemon)
    : (option (list Byte.byte) * option error) * Daemon :=
  ((None, Some DecodeError), d).

Definition no_encoder_env : Env Daemon :=
  mkEnv Daemon
    double_call_ObjectPaths double_call_ObjectPath
    double_call2 double_callError2
    double_getUint32Property double_getSliceObjectProperty
    double_subscribeNamespace
    double_DeviceFactory double_NewActiveConnection
    double_NmState_String failing_json_Marshal.

End Scene2.


(* ===================================================================== *)
(** ** Running the monad *)
(* ===================================================================== *)

Section Running.

Context {D : Type}.

Lemma run_bind {A B} (m : M D A) (f : A -> M D B) (w : World D) :
  (m ≫= f) w = f (fst (m w)) (snd (m w)).
Proof. unfold mbind, M_bind. destruct (m w); reflexivity. Qed.

Lemma invoke_eq {A} (ev : A -> Event) (h : D -> A * D) (w : World D) :
  invoke ev h w =
  (fst (h (daemon w)),
   mkWorld (snd (h (daemon w))) (trace w ++ [ev (fst (h (daemon w)))])
           (signals w) (chans w)).
Proof. unfold invoke. destruct (h (daemon w)); reflexivity. Qed.

(** The events of a run are what it appended to the log. *)
Lemma events_appended {A} (m : M D A) (w : World D) (evs : list Event) :
  trace (exec m w) = trace w ++ evs -> events m w = evs.
Proof. unfold events. intros ->. apply drop_app_length. Qed.

End Running.

(* ===================================================================== *)
(** ** [GetState] *)
(* ===================================================================== *)

Section GetState_facts.

Context {D : Type} `{!Env D}.

(** The result of [GetState] is decided by the property read alone. *)
Lemma GetState_eq (n : networkManager) (w : World D) :
  run (GetState n) w =
  match fst (getUint32Property NetworkManagerPropertyState (daemon w)) with
  | (_, Some e) => (NmStateUnknown, Some e)
  | (r, None) => (ToNmState r, None)
  end.
Proof.
  unfold run, GetState. rewrite run_bind, invoke_eq. cbn [fst snd].
  destruct (getUint32Property _ _) as [[r [e|]] d']; reflexivity.
Qed.

(** [GetState] is one helper invocation. *)
Lemma GetState_exec (n : networkManager) (w : World D) :
  exec (GetState n) w =
  mkWorld (snd (getUint32Property NetworkManagerPropertyState (daemon w)))
          (trace w ++
           [EGetUint32Property NetworkManagerPropertyState
              (snd (run (GetState n) w))])
          (signals w) (chans w).
Proof.
  rewrite GetState_eq.
  unfold exec, GetState. rewrite run_bind, invoke_eq. cbn [fst snd].
  destruct (getUint32Property _ _) as [[r [e|]] d']; reflexivity.
Qed.

(** A state returned together with a non-nil error is the unknown
    sentinel. *)
Lemma GetState_error_state (n : networkManager) (w : World D) :
  snd (run (GetState n) w) <> None ->
  fst (run (GetState n) w) = NmStateUnknown.
Proof.
  rewrite GetState_eq.
  destruct (fst (getUint32Property _ _)) as [r [e|]]; cbn [fst snd].
  - reflexivity.
  - intros Hnil. contradiction.
Qed.

End GetState_facts.

Lemma NmState_defined_iff (r : Z) :
  NmState_defined r = true <->
  r = 0 \/ r = 10 \/ r = 20 \/ r = 30 \/ r = 40 \/ r = 50 \/ r = 60 \/ r = 70.
Proof.
  unfold NmState_defined, NmState_defined_codes.
  rewrite bool_decide_eq_true. rewrite !elem_of_cons, elem_of_nil. tauto.
Qed.

(** On the defined codes the conversion of [GetState] and the decoding of
    the specification are the same function. *)
Lemma decodeState_spec_defined (r : Z) :
  NmState_defined r = true -> decodeState_spec r = ToNmState r.
Proof. intros Hdef. unfold decodeState_spec. rewrite Hdef. reflexivity. Qed.

(** C1, as stated, fails: the daemon reports 71, which is outside the defined
    set; the read succeeds, and [GetState] returns the state of code 71, not
    the unknown sentinel the decoding of the specification gives. *)
Lemma GetState_unknown_code_counterexample :
  fst (getUint32Property NetworkManagerPropertyState (daemon Scene.state_71))
  = (71, None)
  /\ NmState_defined 71 = false
  /\ decodeState_spec 71 = NmStateUnknown
  /\ run (GetState Double.nm0) Scene.state_71 = (ToNmState 71, None)
  /\ run (GetState Double.nm0) Scene.state_71 <> (NmStateUnknown, None).
Proof. vm_compute. repeat split; congruence. Qed.

(** C1, amended: for every integer [r] successfully read from the state
    property, [GetState] returns the state whose code is [r], with a nil
    error.  For [r] in the defined set this is the exact corresponding
    variant (0 gives unknown, 70 gives connected); for [r] outside the
    defined set it is the state of that same out-of-set code, which is not
    the unknown sentinel. *)
Theorem GetState_converts_code
    {D : Type} `{!Env D} (n : networkManager) (w : World D) (r : Z) :
  fst (getUint32Property NetworkManagerPropertyState (daemon w)) = (r, None) ->
  run (GetState n) w = (ToNmState r, None)
  /\ NmState_code (fst (run (GetState n) w)) = r
  /\ (NmState_defined r = true ->
      fst (run (GetState n) w) = decodeState_spec r)
  /\ (NmState_defined r = false ->
      fst (run (GetState n) w) <> NmStateUnknown
      /\ NmState_defined (NmState_code (fst (run (GetState n) w))) = false).
Proof.
  intros Hread. rewrite GetState_eq, Hread. cbn [fst NmState_code].
  repeat split.
  - intros Hdef. symmetry. apply decodeState_spec_defined, Hdef.
  - intros Heq. unfold NmStateUnknown in Heq. injection Heq as ->.
    discriminate.
  - assumption.
Qed.

Lemma GetState_converts_code_witness :
  fst (getUint32Property NetworkManagerPropertyState (daemon Scene.online))
  = (70, None)
  /\ run (GetState Double.nm0) Scene.online = (NmStateConnectedGlobal, None).
Proof.
  split; [reflexivity|].
  apply (GetState_converts_code Double.nm0 Scene.online 70).
  reflexivity.
Defined.

Example GetState_zero_is_unknown :
  run (GetState Double.nm0) (Double.fresh (Scene.serving 0 [] []))
  = (NmStateUnknown, None).
Proof. reflexivity. Qed.

(** C10: whenever the property read fails, [GetState] returns the unknown
    sentinel together with the error of the read, whatever value the read
    left in its integer result. *)
Theorem GetState_error_is_unknown
    {D : Type} `{!Env D} (n : networkManager) (w : World D)
    (r : Z) (e : error) :
  fst (getUint32Property NetworkManagerPropertyState (daemon w))
  = (r, Some e) ->
  run (GetState n) w = (NmStateUnknown, Some e).
Proof. intros Hread. rewrite GetState_eq, Hread. reflexivity. Qed.

(** A run on the implementation whose failed read leaves the stale value 70
    behind: the stale value does not reach the caller. *)
Lemma GetState_error_is_unknown_witness :
  fst (@getUint32Property _ Double.stale_env
         NetworkManagerPropertyState (daemon Scene.unreachable))
  = (70, Some TransportError)
  /\ run (@GetState _ Double.stale_env Double.nm0) Scene.unreachable
     = (NmStateUnknown, Some TransportError).
Proof.
  split; [reflexivity|].
  apply (@GetState_error_is_unknown _ Double.stale_env Double.nm0
           Scene.unreachable 70 TransportError).
  reflexivity.
Defined.

(* ===================================================================== *)
(** ** Activation *)
(* ===================================================================== *)

Section Activation_facts.

Context {D : Type} `{!Env D}.

Lemma AddAndActivateWirelessConnection_eq (n : networkManager)
    (connection : Profile) (d : Device) (ap : AccessPoint) (w : World D) :
  run (AddAndActivateWirelessConnection n connection d ap) w =
  let r := call2 NetworkManagerAddAndActivateConnection
                 (add_args connection d ap) (daemon w) in
  wrap_second (fst r) (snd r).
Proof.
  unfold run, AddAndActivateWirelessConnection, wrap_second.
  cbn zeta. rewrite run_bind, invoke_eq. cbn [fst snd].
  destruct (call2 _ _ _) as [[[p1 p2] [e|]] d']; cbn [fst snd].
  - reflexivity.
  - rewrite run_bind, invoke_eq. cbn [fst snd daemon].
    destruct (NewActiveConnection p2 d') as [[ac err] d'']; reflexivity.
Qed.

Lemma AddAndActivateWirelessConnection_callError2_eq (n : networkManager)
    (connection : Profile) (d : Device) (ap : AccessPoint) (w : World D) :
  run (AddAndActivateWirelessConnection_callError2 n connection d ap) w =
  let r := callError2 NetworkManagerAddAndActivateConnection
                      (add_args connection d ap) (daemon w) in
  wrap_second (fst r) (snd r).
Proof.
  unfold run, AddAndActivateWirelessConnection_callError2, wrap_second.
  cbn zeta. rewrite run_bind, invoke_eq. cbn [fst snd].
  destruct (callError2 _ _ _) as [[[p1 p2] [e|]] d']; cbn [fst snd].
  - reflexivity.
  - rewrite run_bind, invoke_eq. cbn [fst snd daemon].
    destruct (NewActiveConnection p2 d') as [[ac err] d'']; reflexivity.
Qed.

(** The two definitions are one function of the call helper: where the two
    helpers agree, so do the methods. *)
Lemma AddAndActivateWirelessConnection_same_body (n : networkManager)
    (connection : Profile) (d : Device) (ap : AccessPoint) (w : World D) :
  call2 NetworkManagerAddAndActivateConnection
        (add_args connection d ap) (daemon w)
  = callError2 NetworkManagerAddAndActivateConnection
               (add_args connection d ap) (daemon w) ->
  run (AddAndActivateWirelessConnection n connection d ap) w
  = run (AddAndActivateWirelessConnection_callError2 n connection d ap) w.
Proof.
  intros Hsame.
  rewrite AddAndActivateWirelessConnection_eq,
    AddAndActivateWirelessConnection_callError2_eq.
  cbn zeta. rewrite Hsame. reflexivity.
Qed.

(** With a successful call, the method returns what wrapping the second
    path returns, for any first path. *)
Lemma AddAndActivateWirelessConnection_success (n : networkManager)
    (connection : Profile) (d : Device) (ap : AccessPoint) (w : World D)
    (p1 p2 : ObjectPath) (d' : D) :
  call2 NetworkManagerAddAndActivateConnection
        (add_args connection d ap) (daemon w) = ((p1, p2, None), d') ->
  run (AddAndActivateWirelessConnection n connection d ap) w
  = fst (NewActiveConnection p2 d').
Proof.
  intros Hcall. rewrite AddAndActivateWirelessConnection_eq.
  cbn zeta. rewrite Hcall. reflexivity.
Qed.

End Activation_facts.

Section Double_activation.

Import Double.

Lemma double_call2_run (connection : Profile) (d : Device)
    (ap : AccessPoint) (w : World Daemon) :
  call2 NetworkManagerAddAndActivateConnection (add_args connection d ap)
        (daemon w)
  = (match next_reply (add_request connection d ap) w with
     | Body [VObjectPath p1; VObjectPath p2] => (p1, p2, None)
     | r => ("", "", Some (plain_fault r))
     end, tick (daemon w)).
Proof.
  cbn [call2 double_env].
  unfold double_call2, send, next_reply, add_request.
  destruct (answer _ _ _) as [| |[|[] [|[] [|]]]]; reflexivity.
Qed.

Lemma double_callError2_run (connection : Profile) (d : Device)
    (ap : AccessPoint) (w : World Daemon) :
  callError2 NetworkManagerAddAndActivateConnection
             (add_args connection d ap) (daemon w)
  = (match next_reply (add_request connection d ap) w with
     | Body [VObjectPath p1; VObjectPath p2] => (p1, p2, None)
     | r => ("", "", Some (structured_fault r))
     end, tick (daemon w)).
Proof.
  cbn [callError2 double_env].
  unfold double_callError2, send, next_reply, add_request.
  destruct (answer _ _ _) as [| |[|[] [|[] [|]]]]; reflexivity.
Qed.

(** Wrapping a valid path in the double: the handle of that path. *)
Lemma double_NewActiveConnection_valid (p : ObjectPath) (d : Daemon) :
  ObjectPath_IsValid p = true ->
  NewActiveConnection p d
  = ((Some (mkActiveConnection p ActiveConnectionInterface), None), d).
Proof.
  intros Hvalid. cbn [NewActiveConnection double_env].
  unfold double_NewActiveConnection. rewrite Hvalid. reflexivity.
Qed.

Lemma double_DeviceFactory_valid (p : ObjectPath) (d : Daemon) :
  ObjectPath_IsValid p = true ->
  DeviceFactory p d = ((Some (mkDevice p DeviceInterface), None), d).
Proof.
  intros Hvalid. cbn [DeviceFactory double_env].
  unfold double_DeviceFactory. rewrite Hvalid. reflexivity.
Qed.

End Double_activation.

(** C2 (the code departs from it): [ActivateWirelessConnection] returns the
    nil handle in every run, together with whatever error the remote call
    gave; the object path the call stored is dropped.  So after a successful
    remote call the result is a nil handle with a nil error. *)
Theorem ActivateWirelessConnection_returns_nil_handle
    {D : Type} `{!Env D} (n : networkManager)
    (c : Connection) (d : Device) (ap : AccessPoint) (w : World D) :
  run (ActivateWirelessConnection n c d ap) w
  = (None,
     snd (fst (call_ObjectPath NetworkManagerActivateConnection
                 (activate_args c d ap) (daemon w)))).
Proof.
  unfold run, ActivateWirelessConnection. cbn zeta.
  rewrite run_bind, invoke_eq. cbn [fst snd].
  destruct (call_ObjectPath _ _ _) as [[opath err] d']; reflexivity.
Qed.

(** The failing run of C2: the daemon answers the activation with a path,
    the helper stores it without error, the method returns no handle. *)
Example ActivateWirelessConnection_success_run :
  fst (call_ObjectPath NetworkManagerActivateConnection
         (activate_args Scene.a_connection Scene.a_device Scene.an_accessPoint)
         (daemon Scene.online))
  = (Scene.active_1, None)
  /\ run (ActivateWirelessConnection Double.nm0
            Scene.a_connection Scene.a_device Scene.an_accessPoint)
         Scene.online
     = (None, None).
Proof. split; vm_compute; reflexivity. Qed.

(** C3: when the add-and-activate call succeeds with two object paths, the
    method returns, with a nil error, the active-connection handle whose
    path is the second of the two; the first path has no part in the
    result. *)
Theorem AddAndActivateWirelessConnection_wraps_second
    (n : networkManager) (connection : Profile) (d : Device)
    (ap : AccessPoint) (w : World Double.Daemon) (p1 p2 : ObjectPath) :
  Double.next_reply (Double.add_request connection d ap) w
  = Double.Body [VObjectPath p1; VObjectPath p2] ->
  Double.ObjectPath_IsValid p2 = true ->
  exists ac : ActiveConnection,
    run (AddAndActivateWirelessConnection n connection d ap) w
    = (Some ac, None)
    /\ GetPath ac = p2
    /\ ac = mkActiveConnection p2 Double.ActiveConnectionInterface.
Proof.
  intros Hreply Hvalid.
  exists (mkActiveConnection p2 Double.ActiveConnectionInterface).
  split; [|split; reflexivity].
  rewrite (AddAndActivateWirelessConnection_success n connection d ap w
             p1 p2 (Double.tick (daemon w))).
  - rewrite double_NewActiveConnection_valid by exact Hvalid. reflexivity.
  - rewrite double_call2_run, Hreply. reflexivity.
Qed.

Lemma AddAndActivateWirelessConnection_wraps_second_witness :
  exists ac : ActiveConnection,
    run (AddAndActivateWirelessConnection Double.nm0
           Scene.a_profile Scene.a_device Scene.an_accessPoint) Scene.online
    = (Some ac, None)
    /\ GetPath ac = Scene.active_2
    /\ ac = mkActiveConnection Scene.active_2 Double.ActiveConnectionInterface.
Proof.
  apply (AddAndActivateWirelessConnection_wraps_second Double.nm0
           Scene.a_profile Scene.a_device Scene.an_accessPoint Scene.online
           Scene.settings_5 Scene.active_2).
  - vm_compute. reflexivity.
  - vm_compute. reflexivity.
Defined.

(** C9: the two definitions of [AddAndActivateWirelessConnection] agree on
    successful replies: for every reply carrying two object paths both
    return the same result, the wrapping of the second path.  On every reply
    they return the same handle and fail together; they differ only when the
    reply is a fault, in the error they return with the nil handle: the
    plain fault for the [call2] definition, the fault with its details for
    the [callError2] definition. *)
Theorem AddAndActivateWirelessConnection_definitions_agree
    (n : networkManager) (connection : Profile) (d : Device)
    (ap : AccessPoint) (w : World Double.Daemon) :
  let first := run (AddAndActivateWirelessConnection n connection d ap) w in
  let second :=
    run (AddAndActivateWirelessConnection_callError2 n connection d ap) w in
  (forall p1 p2 : ObjectPath,
     Double.next_reply (Double.add_request connection d ap) w
     = Double.Body [VObjectPath p1; VObjectPath p2] ->
     first = second
     /\ first = fst (NewActiveConnection p2 (Double.tick (daemon w)))
     /\ (Double.ObjectPath_IsValid p2 = true ->
         first = (Some (mkActiveConnection p2 Double.ActiveConnectionInterface),
                  None)))
  /\ fst first = fst second
  /\ (snd first = None <-> snd second = None)
  /\ match Double.next_reply (Double.add_request connection d ap) w with
     | Double.Fault name details =>
         first = (None, Some (RemoteError name []))
         /\ second = (None, Some (RemoteError name details))
     | _ => first = second
     end.
Proof.
  cbn zeta.
  rewrite AddAndActivateWirelessConnection_eq,
    AddAndActivateWirelessConnection_callError2_eq.
  cbn zeta. rewrite double_call2_run, double_callError2_run.
  cbn [fst snd].
  destruct (Double.next_reply _ w)
    as [| name details |[|[] [|[] [|]]]] eqn:Hreply;
    cbn [wrap_second Double.plain_fault Double.structured_fault fst snd].
  all: try (repeat split; intros; try discriminate; try reflexivity;
            try congruence; fail).
  split; [|repeat split; auto].
  intros p1 p2 [= -> ->]. repeat split.
  intros Hvalid. rewrite double_NewActiveConnection_valid by exact Hvalid.
  reflexivity.
Qed.

Lemma AddAndActivateWirelessConnection_definitions_agree_witness :
  run (AddAndActivateWirelessConnection Double.nm0
         Scene.a_profile Scene.a_device Scene.an_accessPoint) Scene.online
  = run (AddAndActivateWirelessConnection_callError2 Double.nm0
           Scene.a_profile Scene.a_device Scene.an_accessPoint) Scene.online
  /\ run (AddAndActivateWirelessConnection Double.nm0
            Scene.a_profile Scene.a_device Scene.an_accessPoint) Scene.online
     = (Some (mkActiveConnection Scene.active_2
                Double.ActiveConnectionInterface), None).
Proof.
  pose proof (proj1 (AddAndActivateWirelessConnection_definitions_agree
                       Double.nm0 Scene.a_profile Scene.a_device
                       Scene.an_accessPoint Scene.online)
                Scene.settings_5 Scene.active_2) as Hagree.
  destruct Hagree as (Hsame & _ & Hwrap).
  - vm_compute. reflexivity.
  - split; [exact Hsame|]. apply Hwrap. vm_compute. reflexivity.
Defined.

(** On a fault the two definitions return different errors. *)
Example AddAndActivateWirelessConnection_fault_run :
  run (AddAndActivateWirelessConnection Double.nm0
         Scene.a_profile Scene.a_device Scene.an_accessPoint) Scene.rejecting
  = (None, Some (RemoteError "org.freedesktop.NetworkManager.UnknownDevice" []))
  /\ run (AddAndActivateWirelessConnection_callError2 Double.nm0
            Scene.a_profile Scene.a_device Scene.an_accessPoint)
         Scene.rejecting
     = (None, Some (RemoteError "org.freedesktop.NetworkManager.UnknownDevice"
                      ["Device not found"])).
Proof. split; vm_compute; reflexivity. Qed.

(* ===================================================================== *)
(** ** Enumerations *)
(* ===================================================================== *)

Section Wrap_loop_facts.

Context {D T : Type}.
Variable ev : ObjectPath -> option error -> Event.
Variable wrap : ObjectPath -> D -> (option T * option error) * D.

(** The logged event tells the error it was logged with. *)
Hypothesis ev_error :
  forall p err p' err', ev p err = ev p' err' -> err = err'.

Lemma wrap_loop_cons (i : nat) (path : ObjectPath) (rest : list ObjectPath)
    (out : list (option T)) (w : World D) :
  wrap_loop ev wrap i (path :: rest) out w =
  let r := wrap path (daemon w) in
  let w' := mkWorld (snd r) (trace w ++ [ev path (snd (fst r))])
                    (signals w) (chans w) in
  match snd (fst r) with
  | Some e => ((None, Some e), w')
  | None => wrap_loop ev wrap (S i) rest (<[i := fst (fst r)]> out) w'
  end.
Proof.
  cbn [wrap_loop]. rewrite run_bind, invoke_eq. cbn [fst snd].
  destruct (wrap path (daemon w)) as [[h [e|]] d']; reflexivity.
Qed.

Lemma wrap_loop_all_or_nothing (paths : list ObjectPath) :
  forall (i : nat) (out : list (option T)) (w : World D),
    all_or_nothing (length out) (run (wrap_loop ev wrap i paths out) w).
Proof.
  induction paths as [|path rest IH]; intros i out w.
  - right. exists out. split; reflexivity.
  - unfold run. rewrite wrap_loop_cons. cbn zeta.
    destruct (snd (fst (wrap path (daemon w)))) as [e|].
    + left. exists e. reflexivity.
    + match goal with
      | |- all_or_nothing _ (fst (wrap_loop _ _ _ _ ?out' ?w')) =>
          specialize (IH (S i) out' w')
      end.
      rewrite length_insert in IH. exact IH.
Qed.

Lemma wrap_loop_fails (paths : list ObjectPath) :
  forall (i : nat) (out : list (option T)) (w : World D),
    (exists p, p ∈ paths /\ wrap_fails wrap p) ->
    exists e, run (wrap_loop ev wrap i paths out) w = (None, Some e).
Proof.
  induction paths as [|path rest IH]; intros i out w (p & Hin & Hfail).
  - apply elem_of_nil in Hin. contradiction.
  - unfold run. rewrite wrap_loop_cons. cbn zeta.
    destruct (snd (fst (wrap path (daemon w)))) as [e|] eqn:Herr.
    + exists e. reflexivity.
    + apply elem_of_cons in Hin as [-> | Hin].
      * exfalso. apply (Hfail (daemon w)). exact Herr.
      * apply IH. exists p. split; assumption.
Qed.

(** The log of the loop: what it appends, and that a failed wrap among it
    is the error the loop returns, with the nil list. *)
Lemma wrap_loop_log (paths : list ObjectPath) :
  forall (i : nat) (out : list (option T)) (w : World D),
    exists evs,
      trace (exec (wrap_loop ev wrap i paths out) w) = trace w ++ evs
      /\ (forall p e, ev p (Some e) ∈ evs ->
            run (wrap_loop ev wrap i paths out) w = (None, Some e)).
Proof.
  induction paths as [|path rest IH]; intros i out w.
  - exists []. split.
    + cbn. rewrite app_nil_r. reflexivity.
    + intros p e Hin. apply elem_of_nil in Hin. contradiction.
  - unfold run, exec. rewrite wrap_loop_cons. cbn zeta.
    destruct (snd (fst (wrap path (daemon w)))) as [e0|].
    + exists [ev path (Some e0)]. split; [reflexivity|].
      intros p e Hin. apply list_elem_of_singleton in Hin.
      apply ev_error in Hin. injection Hin as ->. reflexivity.
    + match goal with
      | |- context [wrap_loop _ _ _ _ ?out' ?w'] =>
          destruct (IH (S i) out' w') as (evs & Htrace & Hfail)
      end.
      exists (ev path None :: evs). split.
      * unfold exec in Htrace. rewrite Htrace. cbn [trace].
        rewrite <- app_assoc. reflexivity.
      * intros p e Hin. apply elem_of_cons in Hin as [Heq | Hin].
        -- apply ev_error in Heq. discriminate.
        -- apply (Hfail p e Hin).
Qed.

(** Where every wrap succeeds with the handle [g path], the loop fills the
    slots [i], [i+1], ... with the handles of the paths, in order.  [Inv]
    is what the wraps preserve of the helpers' state. *)
Lemma wrap_loop_succeeds (Inv : D -> Prop) (g : ObjectPath -> option T)
    (paths : list ObjectPath) :
  (forall p d, p ∈ paths -> Inv d ->
     fst (wrap p d) = (g p, None) /\ Inv (snd (wrap p d))) ->
  forall (i : nat) (out : list (option T)) (w : World D),
    Inv (daemon w) ->
    (i + length paths <= length out)%nat ->
    run (wrap_loop ev wrap i paths out) w
    = (Some (take i out ++ (g <$> paths) ++ drop (i + length paths) out),
       None).
Proof.
  induction paths as [|path rest IH]; intros Hwrap i out w Hinv Hlen.
  - cbn [length fmap list_fmap app] in *. rewrite Nat.add_0_r.
    rewrite take_drop. reflexivity.
  - unfold run. rewrite wrap_loop_cons. cbn zeta.
    destruct (Hwrap path (daemon w)) as [Hfst Hinv'];
      [apply elem_of_cons; left; reflexivity | exact Hinv |].
    rewrite Hfst. cbn [fst snd length] in *.
    unfold run in IH. rewrite IH.
    + f_equal. f_equal.
      rewrite (take_S_r _ _ (g path))
        by (apply list_lookup_insert_eq; lia).
      rewrite take_insert_ge by lia.
      rewrite drop_insert_lt by lia.
      rewrite <- app_assoc. cbn [fmap list_fmap app].
      replace (S i + length rest)%nat with (i + S (length rest))%nat by lia.
      reflexivity.
    + intros p d Hin. apply Hwrap. apply elem_of_cons. right. exact Hin.
    + exact Hinv'.
    + rewrite length_insert. lia.
Qed.

End Wrap_loop_facts.

Section Enumeration_facts.

Context {D : Type} `{!Env D}.

Lemma GetDevices_loop_is_wrap_loop (devicePaths : list ObjectPath) :
  forall (i : nat) (devices : list (option Device)) (w : World D),
    GetDevices_loop i devicePaths devices w
    = wrap_loop EDeviceFactory DeviceFactory i devicePaths devices w.
Proof.
  induction devicePaths as [|path rest IH]; intros i devices w.
  - reflexivity.
  - cbn [GetDevices_loop wrap_loop]. rewrite !run_bind.
    destruct (fst (invoke _ _ w)) as [h [e|]]; [reflexivity | apply IH].
Qed.

Lemma GetActiveConnections_loop_is_wrap_loop (acPaths : list ObjectPath) :
  forall (i : nat) (ac : list (option ActiveConnection)) (w : World D),
    GetActiveConnections_loop i acPaths ac w
    = wrap_loop ENewActiveConnection NewActiveConnection i acPaths ac w.
Proof.
  induction acPaths as [|path rest IH]; intros i ac w.
  - reflexivity.
  - cbn [GetActiveConnections_loop wrap_loop]. rewrite !run_bind.
    destruct (fst (invoke _ _ w)) as [h [e|]]; [reflexivity | apply IH].
Qed.

(** [GetDevices]: the call, then the loop over the paths it stored. *)
Lemma GetDevices_eq (n : networkManager) (w : World D) :
  GetDevices n w =
  let c := invoke (fun r => ECall NetworkManagerGetDevices [] (snd r))
                  (call_ObjectPaths NetworkManagerGetDevices []) w in
  match snd (fst c) with
  | Some e => ((None, Some e), snd c)
  | None =>
      wrap_loop EDeviceFactory DeviceFactory 0 (fst (fst c))
                (replicate (length (fst (fst c))) None) (snd c)
  end.
Proof.
  unfold GetDevices. rewrite run_bind. cbn zeta.
  destruct (invoke _ _ w) as [[paths [e|]] w']; cbn [fst snd].
  - reflexivity.
  - apply GetDevices_loop_is_wrap_loop.
Qed.

Lemma GetActiveConnections_eq (n : networkManager) (w : World D) :
  GetActiveConnections n w =
  let c := invoke (fun r => EGetSliceObjectProperty
                              NetworkManagerPropertyActiveConnection (snd r))
                  (getSliceObjectProperty
                     NetworkManagerPropertyActiveConnection) w in
  match snd (fst c) with
  | Some e => ((None, Some e), snd c)
  | None =>
      wrap_loop ENewActiveConnection NewActiveConnection 0 (fst (fst c))
                (replicate (length (fst (fst c))) None) (snd c)
  end.
Proof.
  unfold GetActiveConnections. rewrite run_bind. cbn zeta.
  destruct (invoke _ _ w) as [[paths [e|]] w']; cbn [fst snd].
  - reflexivity.
  - apply GetActiveConnections_loop_is_wrap_loop.
Qed.

Lemma EDeviceFactory_error (p : ObjectPath) (err : option error)
    (p' : ObjectPath) (err' : option error) :
  EDeviceFactory p err = EDeviceFactory p' err' -> err = err'.
Proof. intros [= _ ->]. reflexivity. Qed.

Lemma ENewActiveConnection_error (p : ObjectPath) (err : option error)
    (p' : ObjectPath) (err' : option error) :
  ENewActiveConnection p err = ENewActiveConnection p' err' -> err = err'.
Proof. intros [= _ ->]. reflexivity. Qed.

Lemma GetDevices_all_or_nothing (n : networkManager) (w : World D) :
  all_or_nothing (length (device_paths w)) (run (GetDevices n) w).
Proof.
  unfold run, device_paths. rewrite GetDevices_eq. cbn zeta.
  rewrite invoke_eq. cbn [fst snd].
  destruct (snd (fst (call_ObjectPaths _ _ _))) as [e|].
  - left. exists e. reflexivity.
  - match goal with
    | |- all_or_nothing _ (fst (wrap_loop ?ev ?wr ?i ?ps ?out ?w')) =>
        pose proof (wrap_loop_all_or_nothing ev wr ps i out w') as Hloop
    end.
    rewrite length_replicate in Hloop. exact Hloop.
Qed.

Lemma GetActiveConnections_all_or_nothing (n : networkManager)
    (w : World D) :
  all_or_nothing (length (active_connection_paths w))
                 (run (GetActiveConnections n) w).
Proof.
  unfold run, active_connection_paths. rewrite GetActiveConnections_eq.
  cbn zeta. rewrite invoke_eq. cbn [fst snd].
  destruct (snd (fst (getSliceObjectProperty _ _))) as [e|].
  - left. exists e. reflexivity.
  - match goal with
    | |- all_or_nothing _ (fst (wrap_loop ?ev ?wr ?i ?ps ?out ?w')) =>
        pose proof (wrap_loop_all_or_nothing ev wr ps i out w') as Hloop
    end.
    rewrite length_replicate in Hloop. exact Hloop.
Qed.

Lemma GetDevices_fails (n : networkManager) (w : World D) :
  (exists p, p ∈ device_paths w /\ wrap_fails DeviceFactory p) ->
  exists e, run (GetDevices n) w = (None, Some e).
Proof.
  unfold run, device_paths. rewrite GetDevices_eq. cbn zeta.
  rewrite invoke_eq. cbn [fst snd].
  destruct (snd (fst (call_ObjectPaths _ _ _))) as [e|].
  - intros _. exists e. reflexivity.
  - apply wrap_loop_fails.
Qed.

Lemma GetActiveConnections_fails (n : networkManager) (w : World D) :
  (exists p, p ∈ active_connection_paths w
             /\ wrap_fails NewActiveConnection p) ->
  exists e, run (GetActiveConnections n) w = (None, Some e).
Proof.
  unfold run, active_connection_paths. rewrite GetActiveConnections_eq.
  cbn zeta. rewrite invoke_eq. cbn [fst snd].
  destruct (snd (fst (getSliceObjectProperty _ _))) as [e|].
  - intros _. exists e. reflexivity.
  - apply wrap_loop_fails.
Qed.

(** A failed wrap in the log of a run of [GetDevices] is the error the run
    returns, with the nil list. *)
Lemma GetDevices_failed_wrap (n : networkManager) (w : World D)
    (p : ObjectPath) (e : error) :
  EDeviceFactory p (Some e) ∈ events (GetDevices n) w ->
  run (GetDevices n) w = (None, Some e).
Proof.
  unfold run, events, exec. rewrite GetDevices_eq. cbn zeta.
  rewrite invoke_eq. cbn [fst snd].
  destruct (snd (fst (call_ObjectPaths _ _ _))) as [e0|].
  - cbn [snd trace]. rewrite drop_app_length.
    intros Hin. apply list_elem_of_singleton in Hin. discriminate.
  - match goal with
    | |- context [wrap_loop ?ev ?wr ?i ?ps ?out ?w'] =>
        destruct (wrap_loop_log ev wr EDeviceFactory_error ps i out w')
          as (evs & Htrace & Hfail)
    end.
    unfold exec in Htrace. rewrite Htrace. cbn [trace].
    rewrite <- app_assoc, drop_app_length.
    intros Hin. apply elem_of_cons in Hin as [Heq | Hin];
      [discriminate | apply (Hfail p e Hin)].
Qed.

Lemma GetActiveConnections_failed_wrap (n : networkManager) (w : World D)
    (p : ObjectPath) (e : error) :
  ENewActiveConnection p (Some e) ∈ events (GetActiveConnections n) w ->
  run (GetActiveConnections n) w = (None, Some e).
Proof.
  unfold run, events, exec. rewrite GetActiveConnections_eq. cbn zeta.
  rewrite invoke_eq. cbn [fst snd].
  destruct (snd (fst (getSliceObjectProperty _ _))) as [e0|].
  - cbn [snd trace]. rewrite drop_app_length.
    intros Hin. apply list_elem_of_singleton in Hin. discriminate.
  - match goal with
    | |- context [wrap_loop ?ev ?wr ?i ?ps ?out ?w'] =>
        destruct (wrap_loop_log ev wr ENewActiveConnection_error ps i out w')
          as (evs & Htrace & Hfail)
    end.
    unfold exec in Htrace. rewrite Htrace. cbn [trace].
    rewrite <- app_assoc, drop_app_length.
    intros Hin. apply elem_of_cons in Hin as [Heq | Hin];
      [discriminate | apply (Hfail p e Hin)].
Qed.

End Enumeration_facts.

(** C6: the enumerations are atomic.  In a run of [GetDevices] or of
    [GetActiveConnections] in which the wrapping of an element fails, the
    method returns that error together with the nil list; the same holds
    when some path of the reply is one whose wrapping fails from every
    state; and in every run the result is either an error with the nil list
    or, without error, a list with one entry per path of the reply, never a
    shorter list. *)
Theorem enumeration_is_atomic
    {D : Type} `{!Env D} (n : networkManager) (w : World D) :
  (forall p e,
     EDeviceFactory p (Some e) ∈ events (GetDevices n) w ->
     run (GetDevices n) w = (None, Some e))
  /\ (forall p e,
        ENewActiveConnection p (Some e) ∈ events (GetActiveConnections n) w ->
        run (GetActiveConnections n) w = (None, Some e))
  /\ ((exists p, p ∈ device_paths w /\ wrap_fails DeviceFactory p) ->
      exists e, run (GetDevices n) w = (None, Some e))
  /\ ((exists p, p ∈ active_connection_paths w
                 /\ wrap_fails NewActiveConnection p) ->
      exists e, run (GetActiveConnections n) w = (None, Some e))
  /\ all_or_nothing (length (device_paths w)) (run (GetDevices n) w)
  /\ all_or_nothing (length (active_connection_paths w))
                    (run (GetActiveConnections n) w).
Proof.
  repeat split.
  - apply GetDevices_failed_wrap.
  - apply GetActiveConnections_failed_wrap.
  - apply GetDevices_fails.
  - apply GetActiveConnections_fails.
  - apply GetDevices_all_or_nothing.
  - apply GetActiveConnections_all_or_nothing.
Qed.

(** A run of C6: the second device path and the second active-connection
    path of the replies do not wrap, and both enumerations return the nil
    list with the error, not the handles wrapped before. *)
Lemma enumeration_is_atomic_witness :
  (EDeviceFactory Scene.malformed (Some DecodeError)
     ∈ events (GetDevices Double.nm0) Scene.broken_lists
   /\ run (GetDevices Double.nm0) Scene.broken_lists
      = (None, Some DecodeError))
  /\ (ENewActiveConnection Scene.malformed (Some DecodeError)
        ∈ events (GetActiveConnections Double.nm0) Scene.broken_lists
      /\ run (GetActiveConnections Double.nm0) Scene.broken_lists
         = (None, Some DecodeError)).
Proof.
  assert (Hdev : EDeviceFactory Scene.malformed (Some DecodeError)
                   ∈ events (GetDevices Double.nm0) Scene.broken_lists).
  { apply (list_elem_of_lookup_2 _ 2%nat). vm_compute. reflexivity. }
  assert (Hac : ENewActiveConnection Scene.malformed (Some DecodeError)
                  ∈ events (GetActiveConnections Double.nm0)
                           Scene.broken_lists).
  { apply (list_elem_of_lookup_2 _ 2%nat). vm_compute. reflexivity. }
  destruct (enumeration_is_atomic Double.nm0 Scene.broken_lists)
    as (Hdevices & Hconnections & _).
  split; split.
  - exact Hdev.
  - exact (Hdevices Scene.malformed DecodeError Hdev).
  - exact Hac.
  - exact (Hconnections Scene.malformed DecodeError Hac).
Defined.

Section Double_enumeration.

Import Double.

Lemma double_GetDevices_call (w : World Daemon) :
  call_ObjectPaths NetworkManagerGetDevices [] (daemon w)
  = (match next_reply (RCall NetworkManagerGetDevices []) w with
     | Body [VObjectPaths ps] => (ps, None)
     | r => ([], Some (plain_fault r))
     end, tick (daemon w)).
Proof.
  cbn [call_ObjectPaths double_env].
  unfold double_call_ObjectPaths, send, next_reply.
  destruct (answer _ _ _) as [| |[|[] [|]]]; reflexivity.
Qed.

(** In the double, the devices of a reply of valid paths are the handles
    of the paths, in the order of the reply. *)
Lemma double_GetDevices_valid (n : networkManager) (w : World Daemon)
    (paths : list ObjectPath) :
  next_reply (RCall NetworkManagerGetDevices []) w
  = Body [VObjectPaths paths] ->
  (forall p, p ∈ paths -> ObjectPath_IsValid p = true) ->
  run (GetDevices n) w
  = (Some ((fun p => Some (mkDevice p DeviceInterface)) <$> paths), None).
Proof.
  intros Hreply Hvalid.
  unfold run. rewrite GetDevices_eq. cbn zeta.
  rewrite invoke_eq, double_GetDevices_call, Hreply. cbn [fst snd].
  pose proof (wrap_loop_succeeds EDeviceFactory DeviceFactory
                (fun _ => True)
                (fun p => Some (mkDevice p DeviceInterface)) paths) as Hloop.
  unfold run in Hloop. rewrite Hloop.
  - rewrite Nat.add_0_l, take_0, drop_ge by (rewrite length_replicate; lia).
    rewrite app_nil_r. reflexivity.
  - intros p d Hin _. split; [|exact I].
    rewrite double_DeviceFactory_valid by (apply Hvalid, Hin). reflexivity.
  - exact I.
  - rewrite length_replicate. lia.
Qed.

End Double_enumeration.

(** C8: every valid object path wraps into a device handle whose path is the
    path wrapped; and when the enumeration call returns valid object paths,
    [GetDevices] returns one handle per path, the [i]-th handle being the
    handle of the [i]-th path. *)
Theorem GetDevices_round_trip
    (n : networkManager) (w : World Double.Daemon) (paths : list ObjectPath) :
  Double.next_reply (Double.RCall NetworkManagerGetDevices []) w
  = Double.Body [VObjectPaths paths] ->
  (forall p, p ∈ paths -> Double.ObjectPath_IsValid p = true) ->
  (forall p d, p ∈ paths ->
     exists dev : Device,
       fst (DeviceFactory p d) = (Some dev, None) /\ GetPath dev = p)
  /\ exists devices : list (option Device),
       run (GetDevices n) w = (Some devices, None)
       /\ length devices = length paths
       /\ (forall (i : nat) (p : ObjectPath),
             paths !! i = Some p ->
             exists dev : Device,
               devices !! i = Some (Some dev) /\ GetPath dev = p).
Proof.
  intros Hreply Hvalid. split.
  - intros p d Hin. exists (mkDevice p Double.DeviceInterface).
    rewrite double_DeviceFactory_valid by (apply Hvalid, Hin).
    split; reflexivity.
  - eexists. split; [apply double_GetDevices_valid; eassumption|].
    split; [apply length_fmap|].
    intros i p Hlookup. exists (mkDevice p Double.DeviceInterface).
    rewrite list_lookup_fmap, Hlookup. split; reflexivity.
Qed.

Lemma GetDevices_round_trip_witness :
  run (GetDevices Double.nm0) Scene.online
  = (Some [Some (mkDevice Scene.device_0 Double.DeviceInterface);
           Some (mkDevice Scene.device_3 Double.DeviceInterface)], None)
  /\ exists devices : list (option Device),
       run (GetDevices Double.nm0) Scene.online = (Some devices, None)
       /\ length devices = 2%nat
       /\ (forall (i : nat) (p : ObjectPath),
             [Scene.device_0; Scene.device_3] !! i = Some p ->
             exists dev : Device,
               devices !! i = Some (Some dev) /\ GetPath dev = p).
Proof.
  split; [vm_compute; reflexivity|].
  apply (GetDevices_round_trip Double.nm0 Scene.online
           [Scene.device_0; Scene.device_3]).
  - vm_compute. reflexivity.
  - intros p Hin.
    apply elem_of_cons in Hin as [-> | Hin]; [vm_compute; reflexivity|].
    apply list_elem_of_singleton in Hin as ->. vm_compute. reflexivity.
Defined.

(* ===================================================================== *)
(** ** [MarshalJSON] *)
(* ===================================================================== *)

Section MarshalJSON_facts.

Context {D : Type} `{!Env D}.

(** [MarshalJSON]: the state read, then the device list, then the
    encoder, each step only after the one before succeeded. *)
Lemma MarshalJSON_eq (n : networkManager) (w : World D) :
  MarshalJSON n w =
  let s := GetState n w in
  match snd (fst s) with
  | Some e => ((None, Some e), snd s)
  | None =>
      let g := GetDevices n (snd s) in
      match snd (fst g) with
      | Some e => ((None, Some e), snd g)
      | None =>
          let name := NmState_String (fst (fst s)) in
          invoke (fun r => EMarshal name (fst (fst g)) (snd r))
                 (json_Marshal name (fst (fst g))) (snd g)
      end
  end.
Proof.
  unfold MarshalJSON. rewrite run_bind. cbn zeta.
  destruct (GetState n w) as [[st [e|]] w1]; cbn [fst snd].
  - reflexivity.
  - rewrite run_bind.
    destruct (GetDevices n w1) as [[devs [e|]] w2]; reflexivity.
Qed.

Lemma MarshalJSON_state_fails (n : networkManager) (w : World D)
    (e : error) :
  snd (run (GetState n) w) = Some e ->
  run (MarshalJSON n) w = (None, Some e)
  /\ exec (MarshalJSON n) w = exec (GetState n) w
  /\ events (MarshalJSON n) w
     = [EGetUint32Property NetworkManagerPropertyState (Some e)].
Proof.
  intros Hfail.
  assert (Hexec : exec (MarshalJSON n) w = exec (GetState n) w).
  { unfold exec, run in *. rewrite MarshalJSON_eq. cbn zeta.
    rewrite Hfail. reflexivity. }
  repeat split.
  - unfold run in *. rewrite MarshalJSON_eq. cbn zeta.
    rewrite Hfail. reflexivity.
  - exact Hexec.
  - apply events_appended. rewrite Hexec, GetState_exec, Hfail.
    reflexivity.
Qed.

Lemma MarshalJSON_devices_fail (n : networkManager) (w : World D)
    (e : error) :
  snd (run (GetState n) w) = None ->
  snd (run (GetDevices n) (exec (GetState n) w)) = Some e ->
  run (MarshalJSON n) w = (None, Some e).
Proof.
  unfold run, exec. intros Hstate Hdevices.
  rewrite MarshalJSON_eq. cbn zeta. rewrite Hstate, Hdevices. reflexivity.
Qed.

(** Bytes come only from the encoder, run on the state and the device
    list of two successful reads. *)
Lemma MarshalJSON_bytes (n : networkManager) (w : World D)
    (bytes : list Byte.byte) :
  fst (run (MarshalJSON n) w) = Some bytes ->
  exists (st : NmState) (devices : option (list (option Device))),
    run (GetState n) w = (st, None)
    /\ run (GetDevices n) (exec (GetState n) w) = (devices, None)
    /\ run (MarshalJSON n) w
       = fst (json_Marshal (NmState_String st) devices
                (daemon (exec (GetDevices n) (exec (GetState n) w)))).
Proof.
  unfold run, exec. rewrite MarshalJSON_eq. cbn zeta.
  destruct (GetState n w) as [[st [e|]] w1]; cbn [fst snd];
    [discriminate|].
  destruct (GetDevices n w1) as [[devs [e|]] w2]; cbn [fst snd];
    [discriminate|].
  intros _. exists st, devs. rewrite invoke_eq. repeat split.
Qed.

End MarshalJSON_facts.

(** C7: [MarshalJSON] fails whenever either read fails.  When the state read
    fails it returns that error and no bytes after the state read alone: the
    device list is not asked for.  When the device read fails it returns
    that error and no bytes.  Bytes are returned only after both reads
    succeeded, and they encode the state and the device list read. *)
Theorem MarshalJSON_fails_with_its_reads
    {D : Type} `{!Env D} (n : networkManager) (w : World D) :
  (forall e,
     snd (run (GetState n) w) = Some e ->
     run (MarshalJSON n) w = (None, Some e)
     /\ exec (MarshalJSON n) w = exec (GetState n) w
     /\ events (MarshalJSON n) w
        = [EGetUint32Property NetworkManagerPropertyState (Some e)])
  /\ (forall e,
        snd (run (GetState n) w) = None ->
        snd (run (GetDevices n) (exec (GetState n) w)) = Some e ->
        run (MarshalJSON n) w = (None, Some e))
  /\ (forall bytes,
        fst (run (MarshalJSON n) w) = Some bytes ->
        exists st devices,
          run (GetState n) w = (st, None)
          /\ run (GetDevices n) (exec (GetState n) w) = (devices, None)
          /\ run (MarshalJSON n) w
             = fst (json_Marshal (NmState_String st) devices
                      (daemon (exec (GetDevices n) (exec (GetState n) w))))).
Proof.
  split; [|split].
  - intros e. apply MarshalJSON_state_fails.
  - intros e. apply MarshalJSON_devices_fail.
  - apply MarshalJSON_bytes.
Qed.

(** Two runs of C7: with the bus unreachable the state read fails and the
    log holds that read alone; with the device enumeration down the state is
    read and the snapshot still fails. *)
Lemma MarshalJSON_fails_with_its_reads_witness :
  (snd (run (GetState Double.nm0) Scene.unreachable) = Some TransportError
   /\ run (MarshalJSON Double.nm0) Scene.unreachable
      = (None, Some TransportError)
   /\ events (MarshalJSON Double.nm0) Scene.unreachable
      = [EGetUint32Property NetworkManagerPropertyState (Some TransportError)])
  /\ (snd (run (GetState Double.nm0) Scene.devices_down) = None
      /\ snd (run (GetDevices Double.nm0)
                (exec (GetState Double.nm0) Scene.devices_down))
         = Some TransportError
      /\ run (MarshalJSON Double.nm0) Scene.devices_down
         = (None, Some TransportError)).
Proof.
  assert (Hstate : snd (run (GetState Double.nm0) Scene.unreachable)
                   = Some TransportError) by reflexivity.
  assert (Hup : snd (run (GetState Double.nm0) Scene.devices_down) = None)
    by reflexivity.
  assert (Hdown : snd (run (GetDevices Double.nm0)
                         (exec (GetState Double.nm0) Scene.devices_down))
                  = Some TransportError) by reflexivity.
  destruct (MarshalJSON_fails_with_its_reads Double.nm0 Scene.unreachable)
    as (Hfirst & _ & _).
  destruct (MarshalJSON_fails_with_its_reads Double.nm0 Scene.devices_down)
    as (_ & Hsecond & _).
  destruct (Hfirst TransportError Hstate) as (Hrun & _ & Hevents).
  split.
  - split; [exact Hstate|]. split; [exact Hrun | exact Hevents].
  - split; [exact Hup|]. split; [exact Hdown|].
    exact (Hsecond TransportError Hup Hdown).
Defined.

(** A full snapshot, for comparison. *)
Example MarshalJSON_online_run :
  run (MarshalJSON Double.nm0) Scene.online
  = (Some (String.list_byte_of_string "connected"), None).
Proof. vm_compute. reflexivity. Qed.

(* ===================================================================== *)
(** ** [Subscribe] and [Unsubscribe] *)
(* ===================================================================== *)

Section Subscription_facts.

Context {D : Type} `{!Env D}.

Lemma Subscribe_subscribed (n : networkManager) (w : World D) (c : chan) :
  sigChan n = Some c -> Subscribe n w = ((c, n), w).
Proof. unfold Subscribe. intros ->. reflexivity. Qed.

Lemma Subscribe_unsubscribed (n : networkManager) (w : World D) :
  sigChan n = None ->
  Subscribe n w =
  ((length (chans w), mkNetworkManager (Some (length (chans w)))),
   mkWorld (subscribeNamespace NetworkManagerObjectPath (daemon w))
           (trace w ++ [ESubscribeNamespace NetworkManagerObjectPath])
           (signals w ++ [length (chans w)])
           (chans w ++ [mkChan 10 false []])).
Proof. unfold Subscribe. intros ->. reflexivity. Qed.

Lemma Unsubscribe_eq (n : networkManager) (w : World D) :
  Unsubscribe n w =
  (mkNetworkManager None,
   match sigChan n with
   | Some c =>
       mkWorld (daemon w) (trace w)
               (filter (fun c' => c' ≠ c) (signals w)) (chans w)
   | None => w
   end).
Proof. reflexivity. Qed.

(** Subscribing twice in a row: the second call returns what the first
    returned and changes nothing. *)
Lemma Subscribe_twice (n : networkManager) (w : World D) :
  Subscribe (snd (run (Subscribe n) w)) (exec (Subscribe n) w)
  = Subscribe n w.
Proof.
  unfold run, exec. destruct (sigChan n) as [c|] eqn:Hsub.
  - rewrite (Subscribe_subscribed n w c Hsub). cbn [fst snd].
    apply Subscribe_subscribed, Hsub.
  - rewrite (Subscribe_unsubscribed n w Hsub). cbn [fst snd].
    apply Subscribe_subscribed. reflexivity.
Qed.

(** The handle's channel stays a made channel. *)
Lemma Subscribe_holds_made_channel (n : networkManager) (w : World D) :
  holds_made_channel n w ->
  holds_made_channel (snd (run (Subscribe n) w)) (exec (Subscribe n) w).
Proof.
  unfold run, exec. intros Hmade. destruct (sigChan n) as [c|] eqn:Hsub.
  - rewrite (Subscribe_subscribed n w c Hsub). exact Hmade.
  - rewrite (Subscribe_unsubscribed n w Hsub). cbn [fst snd].
    intros c [= <-]. cbn [chans]. rewrite length_app. cbn. lia.
Qed.

Lemma Unsubscribe_holds_made_channel (n : networkManager) (w : World D) :
  holds_made_channel (run (Unsubscribe n) w) (exec (Unsubscribe n) w).
Proof. intros c. unfold run. rewrite Unsubscribe_eq. discriminate. Qed.

Lemma unsubscribed_holds_made_channel (w : World D) :
  holds_made_channel (mkNetworkManager None) w.
Proof. intros c. discriminate. Qed.

End Subscription_facts.

(** C5: [Subscribe] is idempotent.  Where the handle already holds a
    channel, [Subscribe] returns that channel and leaves the handle and the
    world as they were: the channels registered on the connection are the
    same, no namespace is registered again, no helper is invoked. *)
Theorem Subscribe_is_idempotent
    {D : Type} `{!Env D} (n : networkManager) (w : World D) (c : chan) :
  sigChan n = Some c ->
  run (Subscribe n) w = (c, n)
  /\ exec (Subscribe n) w = w
  /\ signals (exec (Subscribe n) w) = signals w
  /\ daemon (exec (Subscribe n) w) = daemon w
  /\ events (Subscribe n) w = [].
Proof.
  intros Hsub. unfold events, run, exec.
  rewrite (Subscribe_subscribed n w c Hsub). cbn [fst snd].
  repeat split. apply drop_all.
Qed.

(** A run of C5: a second [Subscribe] after the first returns channel 0
    again and the connection still has the one registration. *)
Lemma Subscribe_is_idempotent_witness :
  sigChan Scene.subscriber = Some 0%nat
  /\ run (Subscribe Scene.subscriber) Scene.subscribed
     = (0%nat, Scene.subscriber)
  /\ signals (exec (Subscribe Scene.subscriber) Scene.subscribed) = [0%nat]
  /\ Double.matches (daemon (exec (Subscribe Scene.subscriber)
                               Scene.subscribed))
     = [NetworkManagerObjectPath].
Proof.
  destruct (Subscribe_is_idempotent Scene.subscriber Scene.subscribed 0%nat)
    as (Hrun & Hexec & _); [reflexivity|].
  split; [reflexivity|]. split; [exact Hrun|].
  rewrite Hexec. split; reflexivity.
Defined.

(** C4, as stated, fails: after [Subscribe] and then [Unsubscribe] the
    channel that [Subscribe] returned is still open; [Unsubscribe] only
    takes it off the connection and forgets it. *)
Lemma Unsubscribe_leaves_channel_open_counterexample :
  fst (run (Subscribe Double.nm0) Scene.online) = 0%nat
  /\ chans (exec (Unsubscribe Scene.subscriber) Scene.subscribed) !! 0%nat
     = Some (mkChan 10 false [])
  /\ chan_closed <$>
       (chans (exec (Unsubscribe Scene.subscriber) Scene.subscribed) !! 0%nat)
     <> Some true.
Proof. vm_compute. repeat split. discriminate. Qed.

(** C4, amended: [Unsubscribe] cancels the signal registration, taking the
    handle's channel off the channels registered on the connection, and
    forgets the channel; it leaves every channel as it was (the channel is
    not closed) and invokes no helper.  After [Unsubscribe], [Subscribe]
    makes a new channel, different from the one held before, open and
    empty, registers it on the connection, stores it in the handle and
    returns it; the channel held before stays unregistered. *)
Theorem Unsubscribe_then_Subscribe
    {D : Type} `{!Env D} (n : networkManager) (w : World D) :
  holds_made_channel n w ->
  let n1 := run (Unsubscribe n) w in
  let w1 := exec (Unsubscribe n) w in
  let c' := fst (run (Subscribe n1) w1) in
  let n2 := snd (run (Subscribe n1) w1) in
  let w2 := exec (Subscribe n1) w1 in
  (sigChan n1 = None
   /\ (forall c, sigChan n = Some c -> c ∉ signals w1)
   /\ (forall c, sigChan n <> Some c -> c ∈ signals w1 <-> c ∈ signals w)
   /\ chans w1 = chans w
   /\ daemon w1 = daemon w
   /\ events (Unsubscribe n) w = [])
  /\ (sigChan n2 = Some c'
      /\ chans w !! c' = None
      /\ (forall c, sigChan n = Some c -> c' <> c)
      /\ chans w2 !! c' = Some (mkChan 10 false [])
      /\ (forall c, c <> c' -> chans w2 !! c = chans w !! c)
      /\ c' ∈ signals w2
      /\ (forall c, sigChan n = Some c -> c ∉ signals w2)
      /\ events (Subscribe n1) w1
         = [ESubscribeNamespace NetworkManagerObjectPath]
      /\ holds_made_channel n2 w2).
Proof.
  intros Hmade. cbn zeta.
  assert (Hn1 : run (Unsubscribe n) w = mkNetworkManager None) by reflexivity.
  assert (Hchans : chans (exec (Unsubscribe n) w) = chans w).
  { unfold exec. rewrite Unsubscribe_eq. destruct (sigChan n); reflexivity. }
  assert (Hdaemon : daemon (exec (Unsubscribe n) w) = daemon w).
  { unfold exec. rewrite Unsubscribe_eq. destruct (sigChan n); reflexivity. }
  assert (Htrace : trace (exec (Unsubscribe n) w) = trace w).
  { unfold exec. rewrite Unsubscribe_eq. destruct (sigChan n); reflexivity. }
  assert (Hgone : forall c, sigChan n = Some c ->
                            c ∉ signals (exec (Unsubscribe n) w)).
  { intros c Hc. unfold exec. rewrite Unsubscribe_eq, Hc. cbn [snd signals].
    intros Hin. apply list_elem_of_filter in Hin as [Hne _].
    apply Hne. reflexivity. }
  split.
  - split; [reflexivity|]. split; [exact Hgone|]. split.
    + intros c Hc. unfold exec. rewrite Unsubscribe_eq.
      destruct (sigChan n) as [c0|]; cbn [snd signals]; [|reflexivity].
      rewrite list_elem_of_filter. split; [tauto|].
      intros Hin. split; [|exact Hin]. intros ->. apply Hc. reflexivity.
    + split; [exact Hchans|]. split; [exact Hdaemon|].
      apply events_appended. rewrite Htrace, app_nil_r. reflexivity.
  - rewrite Hn1. unfold events, run, exec.
    rewrite Subscribe_unsubscribed by reflexivity. cbn [fst snd].
    fold (exec (Unsubscribe n) w). cbn [sigChan chans signals trace].
    rewrite Hchans, Htrace.
    split; [reflexivity|].
    split; [apply lookup_ge_None_2; lia|].
    split; [intros c Hc; specialize (Hmade c Hc); lia|].
    split; [rewrite lookup_app_r, Nat.sub_diag by lia; reflexivity|].
    split.
    { intros c Hne. destruct (decide (c < length (chans w))%nat) as [Hlt|Hge].
      - rewrite lookup_app_l by exact Hlt. reflexivity.
      - rewrite !lookup_ge_None_2; [reflexivity | lia |].
        rewrite length_app. cbn [length]. lia. }
    split; [apply elem_of_app; right; apply list_elem_of_singleton;
            reflexivity|].
    split.
    { intros c Hc Hin. apply elem_of_app in Hin as [Hin | Hin].
      - exact (Hgone c Hc Hin).
      - apply list_elem_of_singleton in Hin. specialize (Hmade c Hc). lia. }
    split; [apply drop_app_length|].
    intros c [= <-]. cbn [chans]. rewrite length_app. cbn [length]. lia.
Qed.

(** A run of C4 as amended: the handle holds channel 0; after [Unsubscribe]
    and [Subscribe] it holds the new channel 1, which is the one registered,
    and channel 0 is neither registered nor closed. *)
Lemma Unsubscribe_then_Subscribe_witness :
  holds_made_channel Scene.subscriber Scene.subscribed
  /\ sigChan Scene.subscriber = Some 0%nat
  /\ fst (run (Subscribe (run (Unsubscribe Scene.subscriber) Scene.subscribed))
            (exec (Unsubscribe Scene.subscriber) Scene.subscribed))
     <> 0%nat
  /\ 0%nat ∉ signals (exec (Unsubscribe Scene.subscriber) Scene.subscribed).
Proof.
  assert (Hmade : holds_made_channel Scene.subscriber Scene.subscribed).
  { intros c [= <-]. vm_compute. lia. }
  destruct (Unsubscribe_then_Subscribe Scene.subscriber Scene.subscribed Hmade)
    as ((_ & Hgone & _) & (_ & _ & Hfresh & _)).
  split; [exact Hmade|]. split; [reflexivity|].
  split.
  - apply Hfresh. reflexivity.
  - apply Hgone. reflexivity.
Defined.

Example resubscribe_run :
  run (Subscribe (run (Unsubscribe Scene.subscriber) Scene.subscribed))
      (exec (Unsubscribe Scene.subscriber) Scene.subscribed)
  = (1%nat, mkNetworkManager (Some 1%nat))
  /\ signals (exec (Subscribe (run (Unsubscribe Scene.subscriber)
                                   Scene.subscribed))
                   (exec (Unsubscribe Scene.subscriber) Scene.subscribed))
     = [1%nat]
  /\ chans (exec (Subscribe (run (Unsubscribe Scene.subscriber)
                                 Scene.subscribed))
                 (exec (Unsubscribe Scene.subscriber) Scene.subscribed))
     = [mkChan 10 false []; mkChan 10 false []].
Proof. vm_compute. repeat split. Qed.


(* ===================================================================== *)
(** ** More on the enumerations *)
(* ===================================================================== *)

Section Wrap_loop_log.

Context {D T : Type}.
Variable ev : ObjectPath -> option error -> Event.
Variable wrap : ObjectPath -> D -> (option T * option error) * D.

Lemma wrap_loop_stops (paths : list ObjectPath) :
  forall (i : nat) (out : list (option T)) (w : World D),
    exists evs,
      trace (exec (wrap_loop ev wrap i paths out) w) = trace w ++ evs
      /\ stops_at_first_failure ev paths evs
           (run (wrap_loop ev wrap i paths out) w).
Proof.
  induction paths as [|path rest IH]; intros i out w.
  - exists []. split; [cbn; rewrite app_nil_r; reflexivity|].
    left. split; [reflexivity|]. exists out. reflexivity.
  - unfold run, exec. rewrite wrap_loop_cons. cbn zeta.
    destruct (snd (fst (wrap path (daemon w)))) as [e|].
    + exists [ev path (Some e)]. split; [reflexivity|].
      right. exists 0%nat, path, e. repeat split.
    + match goal with
      | |- context [wrap_loop _ _ _ _ ?out' ?w'] =>
          destruct (IH (S i) out' w') as (evs & Htrace & Hstop)
      end.
      exists (ev path None :: evs). split.
      * unfold exec in Htrace. rewrite Htrace. cbn [trace].
        rewrite <- app_assoc. reflexivity.
      * unfold run in Hstop.
        destruct Hstop as [[-> Hlist] | (k & p & e & Hk & -> & Hrun)].
        -- left. split; [reflexivity | exact Hlist].
        -- right. exists (S k), p, e. repeat split; assumption.
Qed.

End Wrap_loop_log.

Section Enumeration_log.

Context {D : Type} `{!Env D}.

Lemma GetDevices_log (n : networkManager) (w : World D) :
  match snd (fst (call_ObjectPaths NetworkManagerGetDevices [] (daemon w))) with
  | Some e =>
      events (GetDevices n) w = [ECall NetworkManagerGetDevices [] (Some e)]
      /\ run (GetDevices n) w = (None, Some e)
  | None =>
      exists evs,
        events (GetDevices n) w = ECall NetworkManagerGetDevices [] None :: evs
        /\ stops_at_first_failure EDeviceFactory (device_paths w) evs
             (run (GetDevices n) w)
  end.
Proof.
  unfold run, events, exec, device_paths. rewrite GetDevices_eq. cbn zeta.
  rewrite invoke_eq. cbn [fst snd].
  destruct (snd (fst (call_ObjectPaths _ _ _))) as [e|].
  - cbn [snd trace]. rewrite drop_app_length. split; reflexivity.
  - match goal with
    | |- context [wrap_loop ?ev ?wr ?i ?ps ?out ?w'] =>
        destruct (wrap_loop_stops ev wr ps i out w') as (evs & Htrace & Hstop)
    end.
    exists evs. unfold exec in Htrace. rewrite Htrace. cbn [trace].
    rewrite <- app_assoc, drop_app_length. split; [reflexivity | exact Hstop].
Qed.

Lemma GetActiveConnections_log (n : networkManager) (w : World D) :
  match snd (fst (getSliceObjectProperty
                    NetworkManagerPropertyActiveConnection (daemon w))) with
  | Some e =>
      events (GetActiveConnections n) w
      = [EGetSliceObjectProperty NetworkManagerPropertyActiveConnection
           (Some e)]
      /\ run (GetActiveConnections n) w = (None, Some e)
  | None =>
      exists evs,
        events (GetActiveConnections n) w
        = EGetSliceObjectProperty NetworkManagerPropertyActiveConnection None
          :: evs
        /\ stops_at_first_failure ENewActiveConnection
             (active_connection_paths w) evs (run (GetActiveConnections n) w)
  end.
Proof.
  unfold run, events, exec, active_connection_paths.
  rewrite GetActiveConnections_eq. cbn zeta.
  rewrite invoke_eq. cbn [fst snd].
  destruct (snd (fst (getSliceObjectProperty _ _))) as [e|].
  - cbn [snd trace]. rewrite drop_app_length. split; reflexivity.
  - match goal with
    | |- context [wrap_loop ?ev ?wr ?i ?ps ?out ?w'] =>
        destruct (wrap_loop_stops ev wr ps i out w') as (evs & Htrace & Hstop)
    end.
    exists evs. unfold exec in Htrace. rewrite Htrace. cbn [trace].
    rewrite <- app_assoc, drop_app_length. split; [reflexivity | exact Hstop].
Qed.

End Enumeration_log.

(** X2: what an enumeration does, step by step.  If the call (or the
    property read) fails, the method returns that error with the nil list
    and wraps nothing.  Otherwise it wraps the paths of the reply in order
    and stops at the first wrap that fails: the paths behind it are never
    wrapped, and the error returned is the error of that wrap. *)
Theorem enumeration_stops_at_first_failure
    {D : Type} `{!Env D} (n : networkManager) (w : World D) :
  match snd (fst (call_ObjectPaths NetworkManagerGetDevices [] (daemon w))) with
  | Some e =>
      events (GetDevices n) w = [ECall NetworkManagerGetDevices [] (Some e)]
      /\ run (GetDevices n) w = (None, Some e)
  | None =>
      exists evs,
        events (GetDevices n) w = ECall NetworkManagerGetDevices [] None :: evs
        /\ stops_at_first_failure EDeviceFactory (device_paths w) evs
             (run (GetDevices n) w)
  end
  /\ match snd (fst (getSliceObjectProperty
                       NetworkManagerPropertyActiveConnection (daemon w))) with
     | Some e =>
         events (GetActiveConnections n) w
         = [EGetSliceObjectProperty NetworkManagerPropertyActiveConnection
              (Some e)]
         /\ run (GetActiveConnections n) w = (None, Some e)
     | None =>
         exists evs,
           events (GetActiveConnections n) w
           = EGetSliceObjectProperty NetworkManagerPropertyActiveConnection
               None :: evs
           /\ stops_at_first_failure ENewActiveConnection
                (active_connection_paths w) evs
                (run (GetActiveConnections n) w)
     end.
Proof. split; [apply GetDevices_log | apply GetActiveConnections_log]. Qed.

(** A run of X2: the second of three device paths is malformed; the third is
    never wrapped. *)
Example enumeration_stops_run :
  events (GetDevices Double.nm0) Scene2.second_bad
  = [ECall NetworkManagerGetDevices [] None;
     EDeviceFactory Scene.device_0 None;
     EDeviceFactory Scene.malformed (Some DecodeError)]
  /\ run (GetDevices Double.nm0) Scene2.second_bad = (None, Some DecodeError).
Proof. vm_compute. split; reflexivity. Qed.

(** X1: an empty enumeration.  When the call succeeds and stores no path,
    [GetDevices] returns the empty list, not the nil one, with a nil error,
    and wraps nothing; likewise [GetActiveConnections] when the property
    read gives no path. *)
Theorem enumeration_of_nothing
    {D : Type} `{!Env D} (n : networkManager) (w : World D) :
  (fst (call_ObjectPaths NetworkManagerGetDevices [] (daemon w)) = ([], None) ->
   run (GetDevices n) w = (Some [], None)
   /\ events (GetDevices n) w = [ECall NetworkManagerGetDevices [] None])
  /\ (fst (getSliceObjectProperty
             NetworkManagerPropertyActiveConnection (daemon w)) = ([], None) ->
      run (GetActiveConnections n) w = (Some [], None)
      /\ events (GetActiveConnections n) w
         = [EGetSliceObjectProperty NetworkManagerPropertyActiveConnection
              None]).
Proof.
  split; intros Hcall.
  - unfold run, events, exec. rewrite GetDevices_eq. cbn zeta.
    rewrite invoke_eq, Hcall. cbn [fst snd length replicate wrap_loop].
    split; [reflexivity|]. cbn. apply drop_app_length.
  - unfold run, events, exec. rewrite GetActiveConnections_eq. cbn zeta.
    rewrite invoke_eq, Hcall. cbn [fst snd length replicate wrap_loop].
    split; [reflexivity|]. cbn. apply drop_app_length.
Qed.

Lemma enumeration_of_nothing_witness :
  run (GetDevices Double.nm0) Scene2.idle = (Some [], None)
  /\ run (GetActiveConnections Double.nm0) Scene2.idle = (Some [], None).
Proof.
  destruct (enumeration_of_nothing Double.nm0 Scene2.idle) as [Hdev Hac].
  split.
  - apply Hdev. reflexivity.
  - apply Hac. reflexivity.
Defined.

(** X3: the enumerations keep the order of the reply.  If the call succeeds
    and every path of the reply wraps, from whatever state, into the handle
    [g path], the method returns the handles of the paths in the order of
    the reply, one per path, with a nil error. *)
Theorem enumeration_keeps_order
    {D : Type} `{!Env D} (n : networkManager) (w : World D)
    (g : ObjectPath -> option Device)
    (g' : ObjectPath -> option ActiveConnection) :
  (snd (fst (call_ObjectPaths NetworkManagerGetDevices [] (daemon w))) = None ->
   (forall p d, p ∈ device_paths w -> fst (DeviceFactory p d) = (g p, None)) ->
   run (GetDevices n) w = (Some (g <$> device_paths w), None))
  /\ (snd (fst (getSliceObjectProperty
                  NetworkManagerPropertyActiveConnection (daemon w))) = None ->
      (forall p d, p ∈ active_connection_paths w ->
         fst (NewActiveConnection p d) = (g' p, None)) ->
      run (GetActiveConnections n) w
      = (Some (g' <$> active_connection_paths w), None)).
Proof.
  split; intros Hcall Hwrap.
  - unfold run, device_paths in *. rewrite GetDevices_eq. cbn zeta.
    rewrite invoke_eq. cbn [fst snd]. rewrite Hcall.
    pose proof (wrap_loop_succeeds EDeviceFactory DeviceFactory
                  (fun _ => True) g
                  (fst (fst (call_ObjectPaths NetworkManagerGetDevices []
                               (daemon w))))) as Hloop.
    unfold run in Hloop. rewrite Hloop.
    + rewrite Nat.add_0_l, take_0, drop_ge by (rewrite length_replicate; lia).
      rewrite app_nil_r. reflexivity.
    + intros p d Hin _. split; [apply Hwrap, Hin | exact I].
    + exact I.
    + rewrite length_replicate. lia.
  - unfold run, active_connection_paths in *.
    rewrite GetActiveConnections_eq. cbn zeta.
    rewrite invoke_eq. cbn [fst snd]. rewrite Hcall.
    pose proof (wrap_loop_succeeds ENewActiveConnection NewActiveConnection
                  (fun _ => True) g'
                  (fst (fst (getSliceObjectProperty
                               NetworkManagerPropertyActiveConnection
                               (daemon w))))) as Hloop.
    unfold run in Hloop. rewrite Hloop.
    + rewrite Nat.add_0_l, take_0, drop_ge by (rewrite length_replicate; lia).
      rewrite app_nil_r. reflexivity.
    + intros p d Hin _. split; [apply Hwrap, Hin | exact I].
    + exact I.
    + rewrite length_replicate. lia.
Qed.

Lemma enumeration_keeps_order_witness :
  active_connection_paths Scene2.second_bad = [Scene.active_1; Scene.active_2]
  /\ run (GetActiveConnections Double.nm0) Scene2.second_bad
     = (Some ((fun p => Some (mkActiveConnection p
                                Double.ActiveConnectionInterface))
              <$> active_connection_paths Scene2.second_bad), None).
Proof.
  split; [reflexivity|].
  apply (proj2 (enumeration_keeps_order Double.nm0 Scene2.second_bad
                  (fun _ => None)
                  (fun p => Some (mkActiveConnection p
                                    Double.ActiveConnectionInterface)))).
  - reflexivity.
  - intros p d Hin.
    rewrite double_NewActiveConnection_valid; [reflexivity|].
    change (p ∈ [Scene.active_1; Scene.active_2]) in Hin.
    apply elem_of_cons in Hin as [-> | Hin]; [vm_compute; reflexivity|].
    apply list_elem_of_singleton in Hin as ->. vm_compute. reflexivity.
Defined.

(* ===================================================================== *)
(** ** More on add-and-activate *)
(* ===================================================================== *)

Section AddAndActivate_log.

Context {D : Type} `{!Env D}.

Lemma AddAndActivateWirelessConnection_log (n : networkManager)
    (connection : Profile) (d : Device) (ap : AccessPoint) (w : World D) :
  let m := NetworkManagerAddAndActivateConnection in
  let args := add_args connection d ap in
  let r := call2 m args (daemon w) in
  events (AddAndActivateWirelessConnection n connection d ap) w
  = match fst r with
    | (_, _, Some e) => [ECall2 m args (Some e)]
    | (_, opath2, None) =>
        [ECall2 m args None;
         ENewActiveConnection opath2
           (snd (fst (NewActiveConnection opath2 (snd r))))]
    end.
Proof.
  cbn zeta. apply events_appended.
  unfold exec, AddAndActivateWirelessConnection. cbn zeta.
  rewrite run_bind, invoke_eq. cbn [fst snd].
  destruct (call2 _ _ _) as [[[p1 p2] [e|]] d']; cbn [fst snd].
  - reflexivity.
  - rewrite run_bind, invoke_eq. cbn [fst snd daemon trace].
    destruct (NewActiveConnection p2 d') as [[ac err] d''].
    cbn [fst snd trace]. rewrite <- app_assoc. reflexivity.
Qed.

Lemma AddAndActivateWirelessConnection_callError2_log (n : networkManager)
    (connection : Profile) (d : Device) (ap : AccessPoint) (w : World D) :
  let m := NetworkManagerAddAndActivateConnection in
  let args := add_args connection d ap in
  let r := callError2 m args (daemon w) in
  events (AddAndActivateWirelessConnection_callError2 n connection d ap) w
  = match fst r with
    | (_, _, Some e) => [ECallError2 m args (Some e)]
    | (_, opath2, None) =>
        [ECallError2 m args None;
         ENewActiveConnection opath2
           (snd (fst (NewActiveConnection opath2 (snd r))))]
    end.
Proof.
  cbn zeta. apply events_appended.
  unfold exec, AddAndActivateWirelessConnection_callError2. cbn zeta.
  rewrite run_bind, invoke_eq. cbn [fst snd].
  destruct (callError2 _ _ _) as [[[p1 p2] [e|]] d']; cbn [fst snd].
  - reflexivity.
  - rewrite run_bind, invoke_eq. cbn [fst snd daemon trace].
    destruct (NewActiveConnection p2 d') as [[ac err] d''].
    cbn [fst snd trace]. rewrite <- app_assoc. reflexivity.
Qed.

End AddAndActivate_log.

(** X4: the outcomes of add-and-activate, for both definitions.  If the
    remote call fails, the method returns the nil handle with that error and
    wraps nothing.  If it succeeds, the method wraps the second path, once,
    and returns exactly what the wrapping returned: its handle and its error
    together, so a handle that comes with an error is passed on, not
    replaced by nil. *)
Theorem AddAndActivateWirelessConnection_outcomes
    {D : Type} `{!Env D} (n : networkManager)
    (connection : Profile) (d : Device) (ap : AccessPoint) (w : World D) :
  let m := NetworkManagerAddAndActivateConnection in
  let args := add_args connection d ap in
  let first := AddAndActivateWirelessConnection n connection d ap in
  let second := AddAndActivateWirelessConnection_callError2 n connection d ap in
  (forall p1 p2 e d',
     call2 m args (daemon w) = ((p1, p2, Some e), d') ->
     run first w = (None, Some e)
     /\ events first w = [ECall2 m args (Some e)])
  /\ (forall p1 p2 d' ac err d'',
        call2 m args (daemon w) = ((p1, p2, None), d') ->
        NewActiveConnection p2 d' = ((ac, err), d'') ->
        run first w = (ac, err)
        /\ events first w = [ECall2 m args None; ENewActiveConnection p2 err])
  /\ (forall p1 p2 e d',
        callError2 m args (daemon w) = ((p1, p2, Some e), d') ->
        run second w = (None, Some e)
        /\ events second w = [ECallError2 m args (Some e)])
  /\ (forall p1 p2 d' ac err d'',
        callError2 m args (daemon w) = ((p1, p2, None), d') ->
        NewActiveConnection p2 d' = ((ac, err), d'') ->
        run second w = (ac, err)
        /\ events second w
           = [ECallError2 m args None; ENewActiveConnection p2 err]).
Proof.
  cbn zeta. split; [|split; [|split]].
  - intros p1 p2 e d' Hcall. split.
    + rewrite AddAndActivateWirelessConnection_eq. cbn zeta.
      rewrite Hcall. reflexivity.
    + rewrite AddAndActivateWirelessConnection_log. cbn zeta.
      rewrite Hcall. reflexivity.
  - intros p1 p2 d' ac err d'' Hcall Hwrap. split.
    + rewrite AddAndActivateWirelessConnection_eq. cbn zeta.
      rewrite Hcall. cbn [fst snd wrap_second]. rewrite Hwrap. reflexivity.
    + rewrite AddAndActivateWirelessConnection_log. cbn zeta.
      rewrite Hcall. cbn [fst snd]. rewrite Hwrap. reflexivity.
  - intros p1 p2 e d' Hcall. split.
    + rewrite AddAndActivateWirelessConnection_callError2_eq. cbn zeta.
      rewrite Hcall. reflexivity.
    + rewrite AddAndActivateWirelessConnection_callError2_log. cbn zeta.
      rewrite Hcall. reflexivity.
  - intros p1 p2 d' ac err d'' Hcall Hwrap. split.
    + rewrite AddAndActivateWirelessConnection_callError2_eq. cbn zeta.
      rewrite Hcall. cbn [fst snd wrap_second]. rewrite Hwrap. reflexivity.
    + rewrite AddAndActivateWirelessConnection_callError2_log. cbn zeta.
      rewrite Hcall. cbn [fst snd]. rewrite Hwrap. reflexivity.
Qed.

(** A run of X4 on an implementation whose wrapping returns a handle with
    its error: the method returns both. *)
Lemma AddAndActivateWirelessConnection_outcomes_witness :
  run (@AddAndActivateWirelessConnection _ Scene2.eager_env Double.nm0
         Scene.a_profile Scene.a_device Scene.an_accessPoint) Scene2.odd_reply
  = (Some (mkActiveConnection Scene.malformed Double.ActiveConnectionInterface),
     Some DecodeError)
  /\ run (AddAndActivateWirelessConnection Double.nm0
            Scene.a_profile Scene.a_device Scene.an_accessPoint)
         Scene.unreachable
     = (None, Some TransportError).
Proof.
  destruct (@AddAndActivateWirelessConnection_outcomes _ Scene2.eager_env
              Double.nm0 Scene.a_profile Scene.a_device Scene.an_accessPoint
              Scene2.odd_reply) as (_ & Hwrapped & _).
  destruct (AddAndActivateWirelessConnection_outcomes
              Double.nm0 Scene.a_profile Scene.a_device Scene.an_accessPoint
              Scene.unreachable) as (Hfailed & _).
  split.
  - eapply Hwrapped; reflexivity.
  - eapply Hfailed. reflexivity.
Defined.

(* ===================================================================== *)
(** ** The queries and the subscription state *)
(* ===================================================================== *)

Section Frames.

Context {D : Type} `{!Env D}.

Lemma frames_ret {A} (a : A) : frames (mret a : M D A).
Proof.
  intros w. repeat split. exists []. cbn. rewrite app_nil_r. reflexivity.
Qed.

Lemma frames_invoke {A} (ev : A -> Event) (h : D -> A * D) :
  frames (invoke ev h).
Proof.
  intros w. unfold exec. rewrite invoke_eq. cbn [snd signals chans trace].
  repeat split. eexists. reflexivity.
Qed.

Lemma frames_bind {A B} (m : M D A) (f : A -> M D B) :
  frames m -> (forall a, frames (f a)) -> frames (m ≫= f).
Proof.
  intros Hm Hf w. unfold exec. rewrite run_bind.
  destruct (Hm w) as (Hs1 & Hc1 & evs1 & Ht1).
  destruct (Hf (fst (m w)) (snd (m w))) as (Hs2 & Hc2 & evs2 & Ht2).
  unfold exec in *. rewrite Hs2, Hc2, Ht2, Hs1, Hc1, Ht1.
  repeat split. exists (evs1 ++ evs2). rewrite app_assoc. reflexivity.
Qed.

Lemma frames_ext {A} (m m' : M D A) :
  (forall w, m w = m' w) -> frames m' -> frames m.
Proof. intros Hext Hm w. unfold exec. rewrite Hext. apply Hm. Qed.

Lemma frames_wrap_loop {T} (ev : ObjectPath -> option error -> Event)
    (wrap : ObjectPath -> D -> (option T * option error) * D)
    (paths : list ObjectPath) :
  forall (i : nat) (out : list (option T)),
    frames (wrap_loop ev wrap i paths out).
Proof.
  induction paths as [|path rest IH]; intros i out.
  - apply frames_ret.
  - cbn [wrap_loop]. apply frames_bind; [apply frames_invoke|].
    intros [h [e|]]; [apply frames_ret | apply IH].
Qed.

Lemma frames_GetState (n : networkManager) : frames (GetState n).
Proof.
  unfold GetState. apply frames_bind; [apply frames_invoke|].
  intros [r [e|]]; apply frames_ret.
Qed.

Lemma frames_GetDevices (n : networkManager) : frames (GetDevices n).
Proof.
  unfold GetDevices. apply frames_bind; [apply frames_invoke|].
  intros [paths [e|]]; [apply frames_ret|].
  eapply frames_ext; [apply GetDevices_loop_is_wrap_loop|].
  apply frames_wrap_loop.
Qed.

Lemma frames_GetActiveConnections (n : networkManager) :
  frames (GetActiveConnections n).
Proof.
  unfold GetActiveConnections. apply frames_bind; [apply frames_invoke|].
  intros [paths [e|]]; [apply frames_ret|].
  eapply frames_ext; [apply GetActiveConnections_loop_is_wrap_loop|].
  apply frames_wrap_loop.
Qed.

Lemma frames_ActivateWirelessConnection (n : networkManager)
    (c : Connection) (d : Device) (ap : AccessPoint) :
  frames (ActivateWirelessConnection n c d ap).
Proof.
  unfold ActivateWirelessConnection. cbn zeta.
  apply frames_bind; [apply frames_invoke|].
  intros [opath err]. apply frames_ret.
Qed.

Lemma frames_AddAndActivateWirelessConnection (n : networkManager)
    (connection : Profile) (d : Device) (ap : AccessPoint) :
  frames (AddAndActivateWirelessConnection n connection d ap).
Proof.
  unfold AddAndActivateWirelessConnection. cbn zeta.
  apply frames_bind; [apply frames_invoke|].
  intros [[p1 p2] [e|]]; [apply frames_ret|].
  apply frames_bind; [apply frames_invoke|].
  intros [ac err]. apply frames_ret.
Qed.

Lemma frames_AddAndActivateWirelessConnection_callError2 (n : networkManager)
    (connection : Profile) (d : Device) (ap : AccessPoint) :
  frames (AddAndActivateWirelessConnection_callError2 n connection d ap).
Proof.
  unfold AddAndActivateWirelessConnection_callError2. cbn zeta.
  apply frames_bind; [apply frames_invoke|].
  intros [[p1 p2] [e|]]; [apply frames_ret|].
  apply frames_bind; [apply frames_invoke|].
  intros [ac err]. apply frames_ret.
Qed.

Lemma frames_MarshalJSON (n : networkManager) : frames (MarshalJSON n).
Proof.
  unfold MarshalJSON. apply frames_bind; [apply frames_GetState|].
  intros [st [e|]]; [apply frames_ret|].
  apply frames_bind; [apply frames_GetDevices|].
  intros [devs [e|]]; [apply frames_ret | apply frames_invoke].
Qed.

End Frames.

(** X5: the queries leave the subscription alone.  [GetState],
    [GetDevices], [GetActiveConnections], the activation methods and
    [MarshalJSON] never register or remove a channel on the connection and
    never make or change a channel, whatever the helpers answer; they only
    add to the log of helper invocations. *)
Theorem queries_leave_subscription_alone
    {D : Type} `{!Env D} (n : networkManager)
    (c : Connection) (connection : Profile) (d : Device) (ap : AccessPoint) :
  frames (GetState n)
  /\ frames (GetDevices n)
  /\ frames (GetActiveConnections n)
  /\ frames (ActivateWirelessConnection n c d ap)
  /\ frames (AddAndActivateWirelessConnection n connection d ap)
  /\ frames (AddAndActivateWirelessConnection_callError2 n connection d ap)
  /\ frames (MarshalJSON n).
Proof.
  repeat apply conj.
  - apply frames_GetState.
  - apply frames_GetDevices.
  - apply frames_GetActiveConnections.
  - apply frames_ActivateWirelessConnection.
  - apply frames_AddAndActivateWirelessConnection.
  - apply frames_AddAndActivateWirelessConnection_callError2.
  - apply frames_MarshalJSON.
Qed.

(* ===================================================================== *)
(** ** More on [MarshalJSON] *)
(* ===================================================================== *)

(** X9: a snapshot after two successful reads.  [MarshalJSON] reads the
    state first and the devices second, gives the encoder the name of the
    state read and the device list, which is not nil and has one entry per
    enumerated path, and returns exactly what the encoder returns, its
    bytes and its error; the encoder is the last helper invoked. *)
Theorem MarshalJSON_after_both_reads
    {D : Type} `{!Env D} (n : networkManager) (w : World D)
    (st : NmState) (devices : option (list (option Device))) :
  run (GetState n) w = (st, None) ->
  run (GetDevices n) (exec (GetState n) w) = (devices, None) ->
  let w1 := exec (GetState n) w in
  let w2 := exec (GetDevices n) w1 in
  (exists l, devices = Some l /\ length l = length (device_paths w1))
  /\ run (MarshalJSON n) w
     = fst (json_Marshal (NmState_String st) devices (daemon w2))
  /\ events (MarshalJSON n) w
     = events (GetState n) w ++ events (GetDevices n) w1
       ++ [EMarshal (NmState_String st) devices
             (snd (run (MarshalJSON n) w))].
Proof.
  intros Hstate Hdevices. cbn zeta.
  assert (Hrun : run (MarshalJSON n) w
                 = fst (json_Marshal (NmState_String st) devices
                          (daemon (exec (GetDevices n) (exec (GetState n) w))))).
  { unfold run, exec in *. rewrite MarshalJSON_eq. cbn zeta.
    rewrite Hstate. cbn [fst snd]. rewrite Hdevices. cbn [fst snd].
    rewrite invoke_eq. reflexivity. }
  split; [|split; [exact Hrun|]].
  - destruct (GetDevices_all_or_nothing n (exec (GetState n) w))
      as [[e He] | [l [Hl Hlen]]].
    + rewrite Hdevices in He. discriminate.
    + rewrite Hdevices in Hl. injection Hl as ->. exists l. split;
        [reflexivity | exact Hlen].
  - destruct (frames_GetState n w) as (_ & _ & evs1 & Ht1).
    destruct (frames_GetDevices n (exec (GetState n) w))
      as (_ & _ & evs2 & Ht2).
    rewrite (events_appended _ _ _ Ht1), (events_appended _ _ _ Ht2).
    apply events_appended. rewrite Hrun.
    unfold run, exec in *. rewrite MarshalJSON_eq. cbn zeta.
    rewrite Hstate. cbn [fst snd]. rewrite Hdevices. cbn [fst snd].
    rewrite invoke_eq. cbn [snd trace]. rewrite Ht2, Ht1.
    rewrite <- !app_assoc. reflexivity.
Qed.

(** Two runs of X9: online, the snapshot is the encoder's bytes; with an
    encoder that fails, its error is what [MarshalJSON] returns. *)
Lemma MarshalJSON_after_both_reads_witness :
  run (MarshalJSON Double.nm0) Scene.online
  = fst (json_Marshal (NmState_String NmStateConnectedGlobal)
           (Some [Some (mkDevice Scene.device_0 Double.DeviceInterface);
                  Some (mkDevice Scene.device_3 Double.DeviceInterface)])
           (daemon (exec (GetDevices Double.nm0)
                      (exec (GetState Double.nm0) Scene.online))))
  /\ run (@MarshalJSON _ Scene2.no_encoder_env Double.nm0) Scene.online
     = fst (@json_Marshal _ Scene2.no_encoder_env
              (NmState_String NmStateConnectedGlobal)
              (Some [Some (mkDevice Scene.device_0 Double.DeviceInterface);
                     Some (mkDevice Scene.device_3 Double.DeviceInterface)])
              (daemon (exec (@GetDevices _ Scene2.no_encoder_env Double.nm0)
                         (exec (@GetState _ Scene2.no_encoder_env Double.nm0)
                               Scene.online))))
  /\ run (@MarshalJSON _ Scene2.no_encoder_env Double.nm0) Scene.online
     = (None, Some DecodeError).
Proof.
  destruct (MarshalJSON_after_both_reads Double.nm0 Scene.online
              NmStateConnectedGlobal
              (Some [Some (mkDevice Scene.device_0 Double.DeviceInterface);
                     Some (mkDevice Scene.device_3 Double.DeviceInterface)]))
    as (_ & Hrun & _); [vm_compute; reflexivity ..|].
  destruct (@MarshalJSON_after_both_reads _ Scene2.no_encoder_env
              Double.nm0 Scene.online NmStateConnectedGlobal
              (Some [Some (mkDevice Scene.device_0 Double.DeviceInterface);
                     Some (mkDevice Scene.device_3 Double.DeviceInterface)]))
    as (_ & Hfail & _); [vm_compute; reflexivity ..|].
  split; [exact Hrun|]. split; [exact Hfail|].
  rewrite Hfail. reflexivity.
Defined.

(* ===================================================================== *)
(** ** The life of a handle *)
(* ===================================================================== *)

(** Removing a channel made later than every registered one removes only
    that channel. *)
Lemma filter_out_later (regs : list chan) (bound c : nat) :
  (forall s, s ∈ regs -> (s < bound)%nat) ->
  (bound <= c)%nat ->
  filter (fun c' => c' ≠ c) (regs ++ [c]) = regs.
Proof.
  intros Hregs Hc. rewrite filter_app.
  rewrite (filter_cons_False _ c [])
    by (intros Hne; apply Hne; reflexivity).
  rewrite filter_nil, app_nil_r.
  induction regs as [|s regs IH]; [reflexivity|].
  rewrite filter_cons_True.
  - f_equal. apply IH. intros s' Hs'. apply Hregs. apply elem_of_cons.
    right. exact Hs'.
  - intros ->. specialize (Hregs c).
    assert (c < bound)%nat by (apply Hregs, elem_of_cons; left; reflexivity).
    lia.
Qed.

Section Lifecycle.

Context {D : Type} `{!Env D}.

Lemma lifecycle_frames {A} (m : M D A) (w0 : World D)
    (n : networkManager) (w : World D) :
  frames m -> lifecycle w0 n w -> lifecycle w0 n (exec m w).
Proof.
  intros Hm (Hchans & Hsignals & Hown).
  destruct (Hm w) as (Hs & Hc & _).
  unfold lifecycle. rewrite Hs, Hc. repeat split; try assumption.
  - apply Hown. assumption.
  - apply Hown. assumption.
Qed.

Lemma step_query {A} (m : M D A) (n : networkManager) (w : World D) :
  run (_ ← m; mret n) w = n /\ exec (_ ← m; mret n) w = exec m w.
Proof. unfold run, exec. rewrite run_bind. split; reflexivity. Qed.

Lemma step_lifecycle (o : Op) (w0 : World D) (n : networkManager)
    (w : World D) :
  registered_are_made w0 ->
  lifecycle w0 n w ->
  lifecycle w0 (run (step o n) w) (exec (step o n) w).
Proof.
  intros Hmade Hlife.
  destruct o; cbn [step];
    try (match goal with
         | |- lifecycle _ (run (_ ← ?m; mret _) _) _ =>
             destruct (step_query m n w) as [-> ->];
             apply lifecycle_frames; [|exact Hlife]
         end).
  - (* Subscribe *)
    unfold run, exec. rewrite run_bind. cbn [fst snd].
    destruct (sigChan n) as [c|] eqn:Hsub.
    + rewrite (Subscribe_subscribed n w c Hsub). exact Hlife.
    + rewrite (Subscribe_unsubscribed n w Hsub).
      unfold mret, M_ret. cbn [fst snd].
      destruct Hlife as ([k Hchans] & Hsignals & _).
      unfold own_registration in Hsignals. rewrite Hsub, app_nil_r in Hsignals.
      split; [|split]; cbn [chans signals sigChan].
      * exists (S k). rewrite Hchans, replicate_S_end, app_assoc. reflexivity.
      * rewrite Hsignals. reflexivity.
      * intros c [= <-]. rewrite Hchans, !length_app. cbn [length]. lia.
  - (* Unsubscribe *)
    unfold run, exec. rewrite Unsubscribe_eq. cbn [fst snd].
    destruct Hlife as ([k Hchans] & Hsignals & Hown).
    destruct (sigChan n) as [c|] eqn:Hsub.
    + unfold own_registration in *. rewrite Hsub in Hsignals.
      split; [|split]; cbn [sigChan chans signals].
      * exists k. exact Hchans.
      * rewrite Hsignals, app_nil_r.
        apply (filter_out_later _ (length (chans w0))); [exact Hmade|].
        apply (Hown c). reflexivity.
      * intros c' [=].
    + unfold own_registration in *. rewrite Hsub in Hsignals.
      split; [|split]; cbn [sigChan].
      * exists k. exact Hchans.
      * exact Hsignals.
      * intros c' [=].
  - apply frames_GetState.
  - apply frames_GetDevices.
  - apply frames_GetActiveConnections.
  - apply frames_ActivateWirelessConnection.
  - apply frames_AddAndActivateWirelessConnection.
  - apply frames_AddAndActivateWirelessConnection_callError2.
  - apply frames_MarshalJSON.
Qed.

Lemma steps_lifecycle (ops : list Op) (w0 : World D) :
  registered_are_made w0 ->
  forall (n : networkManager) (w : World D),
    lifecycle w0 n w ->
    lifecycle w0 (run (steps ops n) w) (exec (steps ops n) w).
Proof.
  intros Hmade. induction ops as [|o rest IH]; intros n w Hlife.
  - exact Hlife.
  - cbn [steps]. unfold run, exec. rewrite run_bind.
    apply IH. apply step_lifecycle; assumption.
Qed.

End Lifecycle.

Lemma NewNetworkManager_eq {D : Type}
    (init : string -> string -> D -> option error * D) (w : World D) :
  NewNetworkManager init w =
  ((mkNetworkManager None,
    fst (init NetworkManagerInterface NetworkManagerObjectPath (daemon w))),
   mkWorld
     (snd (init NetworkManagerInterface NetworkManagerObjectPath (daemon w)))
     (trace w) (signals w) (chans w)).
Proof. unfold NewNetworkManager. destruct (init _ _ _); reflexivity. Qed.

(** X6: the life of a handle.  Take a handle made by [NewNetworkManager]
    (with [init] succeeding) on a connection where other channels may be
    registered already, and call its methods in any number and order.  Then
    the channels that existed are all still there, unchanged; every channel
    made since is as [Subscribe] makes it, open and empty: none is ever
    closed or written; the registrations of the others are untouched and in
    order; and the handle has at most one registration, that of the channel
    it holds, which is one of the channels made since. *)
Theorem handle_lifecycle
    {D : Type} `{!Env D} (init : string -> string -> D -> option error * D)
    (w : World D) (ops : list Op) :
  registered_are_made w ->
  snd (run (NewNetworkManager init) w) = None ->
  let n0 := fst (run (NewNetworkManager init) w) in
  let w0 := exec (NewNetworkManager init) w in
  let n := run (steps ops n0) w0 in
  let w' := exec (steps ops n0) w0 in
  (exists k, chans w' = chans w ++ replicate k new_channel)
  /\ signals w' = signals w ++ own_registration n
  /\ (forall c, sigChan n = Some c ->
        (c ∉ signals w) /\ chans w' !! c = Some new_channel).
Proof.
  intros Hmade _. cbn zeta.
  assert (Hn0 : fst (run (NewNetworkManager init) w) = mkNetworkManager None)
    by (unfold run; rewrite NewNetworkManager_eq; reflexivity).
  assert (Hw0 : exec (NewNetworkManager init) w
                = mkWorld (snd (init NetworkManagerInterface
                                     NetworkManagerObjectPath (daemon w)))
                          (trace w) (signals w) (chans w))
    by (unfold exec; rewrite NewNetworkManager_eq; reflexivity).
  rewrite Hn0, Hw0.
  set (w0 := mkWorld _ (trace w) (signals w) (chans w)).
  assert (Hmade0 : registered_are_made w0) by exact Hmade.
  assert (Hstart : lifecycle w0 (mkNetworkManager None) w0).
  { split; [|split].
    - exists 0%nat. cbn. rewrite app_nil_r. reflexivity.
    - cbn. rewrite app_nil_r. reflexivity.
    - intros c [=]. }
  destruct (steps_lifecycle ops w0 Hmade0 _ _ Hstart)
    as ([k Hchans] & Hsignals & Hown).
  split; [exists k; exact Hchans|]. split; [exact Hsignals|].
  intros c Hc. specialize (Hown c Hc). cbn [chans w0] in Hown. split.
  - intros Hin. specialize (Hmade c Hin). lia.
  - rewrite Hchans in *. cbn [chans w0] in *.
    rewrite length_app, length_replicate in Hown.
    rewrite lookup_app_r by lia. apply lookup_replicate_2. lia.
Qed.

(** A run of X6: the handle is created where channel 0 of another handle is
    registered; after the session it holds channel 2, registered behind
    channel 0, and channel 1, which it made before, is still open. *)
Lemma handle_lifecycle_witness :
  registered_are_made Scene2.shared
  /\ run (steps Scene2.session
            (fst (run (NewNetworkManager Scene2.connecting) Scene2.shared)))
         (exec (NewNetworkManager Scene2.connecting) Scene2.shared)
     = mkNetworkManager (Some 2%nat)
  /\ signals (exec (steps Scene2.session
                      (fst (run (NewNetworkManager Scene2.connecting)
                              Scene2.shared)))
                   (exec (NewNetworkManager Scene2.connecting) Scene2.shared))
     = signals Scene2.shared
       ++ own_registration
            (run (steps Scene2.session
                    (fst (run (NewNetworkManager Scene2.connecting)
                            Scene2.shared)))
                 (exec (NewNetworkManager Scene2.connecting) Scene2.shared)).
Proof.
  assert (Hmade : registered_are_made Scene2.shared).
  { intros c Hin. apply list_elem_of_singleton in Hin as ->. cbn. lia. }
  destruct (handle_lifecycle Scene2.connecting Scene2.shared Scene2.session
              Hmade) as (_ & Hsignals & _); [reflexivity|].
  split; [exact Hmade|]. split; [vm_compute; reflexivity | exact Hsignals].
Defined.

Example handle_lifecycle_run :
  signals (exec (steps Scene2.session Double.nm0) Scene2.shared)
  = [0%nat; 2%nat]
  /\ chans (exec (steps Scene2.session Double.nm0) Scene2.shared)
     = [mkChan 4 false []; new_channel; new_channel].
Proof. vm_compute. split; reflexivity. Qed.

(** X7: [Unsubscribe] without a subscription.  On a handle that holds no
    channel [Unsubscribe] changes nothing, neither the handle nor the
    connection; so a second [Unsubscribe] after a first is without
    effect. *)
Theorem Unsubscribe_without_subscription
    {D : Type} `{!Env D} (n : networkManager) (w : World D) :
  (sigChan n = None -> Unsubscribe n w = (n, w))
  /\ Unsubscribe (run (Unsubscribe n) w) (exec (Unsubscribe n) w)
     = (run (Unsubscribe n) w, exec (Unsubscribe n) w).
Proof.
  split.
  - intros Hnone. rewrite Unsubscribe_eq, Hnone.
    destruct n as [c]. cbn in Hnone. subst c. reflexivity.
  - unfold run, exec. rewrite !Unsubscribe_eq. reflexivity.
Qed.

Lemma Unsubscribe_without_subscription_witness :
  Unsubscribe Double.nm0 Scene2.shared = (Double.nm0, Scene2.shared)
  /\ signals (exec (Unsubscribe Double.nm0) Scene2.shared) = [0%nat].
Proof.
  destruct (Unsubscribe_without_subscription Double.nm0 Scene2.shared)
    as [Hnone _].
  split; [apply Hnone; reflexivity|].
  unfold exec. rewrite Hnone by reflexivity. reflexivity.
Defined.

Section Rounds.

Context {D : Type} `{!Env D}.

Lemma round_eq (n : networkManager) (w : World D) (rest : list Op) :
  sigChan n = None ->
  registered_are_made w ->
  steps (OSubscribe :: OUnsubscribe :: rest) n w
  = steps rest (mkNetworkManager None)
      (mkWorld (subscribeNamespace NetworkManagerObjectPath (daemon w))
               (trace w ++ [ESubscribeNamespace NetworkManagerObjectPath])
               (signals w) (chans w ++ [new_channel])).
Proof.
  intros Hnone Hmade. cbn [steps step].
  rewrite !run_bind.
  rewrite (Subscribe_unsubscribed n w Hnone).
  unfold mret, M_ret. cbn [fst snd].
  rewrite Unsubscribe_eq. cbn [fst snd sigChan signals daemon trace chans].
  rewrite (filter_out_later _ (length (chans w))) by (exact Hmade || lia).
  reflexivity.
Qed.

Lemma rounds_run (k : nat) :
  forall (n : networkManager) (w : World D),
    sigChan n = None ->
    registered_are_made w ->
    steps (rounds k) n w
    = (mkNetworkManager None,
       mkWorld
         (Nat.iter k (subscribeNamespace NetworkManagerObjectPath) (daemon w))
         (trace w ++ replicate k (ESubscribeNamespace NetworkManagerObjectPath))
         (signals w) (chans w ++ replicate k new_channel)).
Proof.
  induction k as [|k IH]; intros n w Hnone Hmade.
  - cbn. rewrite !app_nil_r. destruct n as [c], w. cbn in Hnone. subst c.
    reflexivity.
  - cbn [rounds]. rewrite round_eq by assumption.
    rewrite IH.
    + cbn [daemon trace signals chans]. rewrite Nat.iter_succ_r.
      rewrite <- !app_assoc. reflexivity.
    + reflexivity.
    + intros c Hin. cbn [signals chans] in *. rewrite length_app.
      specialize (Hmade c Hin). lia.
Qed.

End Rounds.

(** X8: what subscribing again and again leaves behind.  After [k] rounds of
    [Subscribe] then [Unsubscribe] the handle holds no channel and the
    connection has the registrations it had before; but [k] channels have
    been made, all still open, and the namespace has been registered [k]
    times, once per [Subscribe]: [Unsubscribe] undoes neither. *)
Theorem subscription_rounds_accumulate
    {D : Type} `{!Env D} (n : networkManager) (w : World D) (k : nat) :
  sigChan n = None ->
  registered_are_made w ->
  let n' := run (steps (rounds k) n) w in
  let w' := exec (steps (rounds k) n) w in
  sigChan n' = None
  /\ signals w' = signals w
  /\ chans w' = chans w ++ replicate k new_channel
  /\ events (steps (rounds k) n) w
     = replicate k (ESubscribeNamespace NetworkManagerObjectPath)
  /\ daemon w'
     = Nat.iter k (subscribeNamespace NetworkManagerObjectPath) (daemon w).
Proof.
  intros Hnone Hmade. cbn zeta. unfold events, run, exec.
  rewrite rounds_run by assumption. cbn [fst snd sigChan signals chans trace daemon].
  repeat split. apply drop_app_length.
Qed.

(** A run of X8 on the double: three rounds leave three open channels and
    three registrations of the namespace with the daemon. *)
Lemma subscription_rounds_accumulate_witness :
  chans (exec (steps (rounds 3) Double.nm0) Scene.online)
  = [new_channel; new_channel; new_channel]
  /\ Double.matches (daemon (exec (steps (rounds 3) Double.nm0) Scene.online))
     = [NetworkManagerObjectPath; NetworkManagerObjectPath;
        NetworkManagerObjectPath]
  /\ signals (exec (steps (rounds 3) Double.nm0) Scene.online) = [].
Proof.
  destruct (subscription_rounds_accumulate Double.nm0 Scene.online 3)
    as (_ & Hsignals & Hchans & _ & Hdaemon).
  - reflexivity.
  - intros c Hin. apply elem_of_nil in Hin. contradiction.
  - split; [exact Hchans|]. split; [rewrite Hdaemon; reflexivity|].
    exact Hsignals.
Defined.
